(** * clawler: the browser command layer (src/tools.ts, src/index.ts)

    A shallow embedding of the MCP browser tools.  Every tool handler of
    [tools.ts] is an [async] function whose body is one [try]/[catch]; the body
    talks to the browser driver ([BrowserManager] of the agent-browser
    package, Playwright pages and locators) and to the module-level variable
    [browser].  Handlers are embedded as programs over the driver's calls
    (a free monad), threaded through the module state, with JavaScript
    exceptions as the left summand of the result.  An interpreter runs a
    program against an arbitrary driver and records the calls it makes. *)

From Stdlib Require Import List String Ascii ZArith Bool Lia DecimalString.
Import ListNotations.
Local Open Scope string_scope.

(** ** JavaScript values used by the handlers *)

Module JS.

(** A JavaScript [number]: [NaN]; [Int z], the number that the integer [z]
    evaluates to, which is [z] itself up to 2^53 and the nearest
    double-precision number beyond; and [Other shown], a number that is not
    an integer (a fraction, an infinity), given by the text JavaScript prints
    for it, which determines the number. *)
Inductive number : Type :=
| NaN
| Int (z : Z)
| Other (shown : string).

(** What a [throw] carries, told apart by what [(error as Error).message]
    does in a template literal, which is all the handlers do with it:
    - [ErrorObject message]: an [Error], or any value whose [message] reads
      and converts to this string;
    - [NoMessage]: a value without a [message] (a thrown string, number or
      plain object): the read gives [undefined];
    - [Null], [Undefined]: the read throws a [TypeError];
    - [Unreadable raised]: a value whose [message] cannot be read or
      converted (a getter that throws): the read throws [raised]. *)
Inductive Thrown : Type :=
| ErrorObject (message : string)
| NoMessage
| Null
| Undefined
| Unreadable (raised : Thrown).

Definition empty : string := EmptyString.
Definition dquote : string := String "034"%char EmptyString.
Definition nl : string := String "010"%char EmptyString.

(** Truthiness of a number: [0] and [NaN] are falsy. *)
Definition truthy_number (n : number) : bool :=
  match n with
  | NaN => false
  | Int z => negb (Z.eqb z 0)
  | Other _ => true
  end.

(** Truthiness of a string: only the empty string is falsy. *)
Definition truthy_string (s : string) : bool :=
  match s with
  | EmptyString => false
  | String _ _ => true
  end.

(** [x || d] where [x : number | undefined]. *)
Definition or_number (x : option number) (d : number) : number :=
  match x with
  | Some n => if truthy_number n then n else d
  | None => d
  end.

(** [x || d] where [x : string | null | undefined] and [d] is a string. *)
Definition or_string (x : option string) (d : string) : string :=
  match x with
  | Some s => if truthy_string s then s else d
  | None => d
  end.

(** [x || y] where both sides are [string | undefined]. *)
Definition or_opt_string (x y : option string) : option string :=
  match x with
  | Some s => if truthy_string s then Some s else y
  | None => y
  end.

(** [x ?? d]. *)
Definition nullish {A : Type} (x : option A) (d : A) : A :=
  match x with
  | Some a => a
  | None => d
  end.

(** [if (x)] for [x : string | undefined]. *)
Definition truthy_opt_string (x : option string) : bool :=
  match x with
  | Some s => truthy_string s
  | None => false
  end.

Definition decimal (z : Z) : string := NilZero.string_of_int (Z.to_int z).

Definition two53 : Z := 9007199254740992.

(** The double-precision number nearest to the integer [a >= 0], ties to
    the even significand; [None] when it is beyond the largest one. *)
Definition nearest_number (a : Z) : option Z :=
  if (a <? two53)%Z then Some a
  else
    let shift := (Z.log2 a - 52)%Z in
    let q := Z.shiftr a shift in
    let r := (a - Z.shiftl q shift)%Z in
    let half := Z.shiftl 1 (shift - 1) in
    let q' := if (half <? r)%Z || ((r =? half)%Z && Z.odd q) then (q + 1)%Z else q in
    let m := Z.shiftl q' shift in
    if (m <? 2 ^ 1024)%Z then Some m else None.

Definition rounds_to (m v : Z) : bool :=
  match nearest_number v with
  | Some m' => (m' =? m)%Z
  | None => false
  end.

(** [Number::toString], the choice of digits: the [k]-digit integer [s] with
    [s * 10^(n-k)] nearest to [m] among those that evaluate to [m], the even
    one of two equally near; [None] when [k] digits are not enough. *)
Definition digits_at (m n k : Z) : option Z :=
  let p := (10 ^ (n - k))%Z in
  let lo := (m / p)%Z in
  let hi := (lo + 1)%Z in
  let below := (m - lo * p)%Z in
  let above := (hi * p - m)%Z in
  match rounds_to m (lo * p), rounds_to m (hi * p) with
  | true, true =>
      if (below <? above)%Z then Some lo
      else if (above <? below)%Z then Some hi
      else if Z.even lo then Some lo else Some hi
  | true, false => Some lo
  | false, true => Some hi
  | false, false => None
  end.

(** The fewest digits that give [m] back. *)
Fixpoint shortest (m n : Z) (ks : list Z) : Z * Z :=
  match ks with
  | [] => (m, n)
  | k :: rest =>
      match digits_at m n k with
      | Some s => (s, k)
      | None => shortest m n rest
      end
  end.

Fixpoint zeros (n : nat) : string :=
  match n with
  | O => EmptyString
  | S n' => String "0"%char (zeros n')
  end.

(** [Number::toString] on an integer [a >= 2^53]: the digits padded with
    zeros below 1e21, exponent form from 1e21 on. *)
Definition show_magnitude (a : Z) : string :=
  match nearest_number a with
  | None => "Infinity"
  | Some m =>
      let n := Z.of_nat (String.length (decimal m)) in
      let '(s, k) := shortest m n (map Z.of_nat (seq 1 (Nat.min 17 (Z.to_nat n)))) in
      let '(s, k, n) := if (s =? 10 ^ k)%Z then (1%Z, 1%Z, (n + 1)%Z) else (s, k, n) in
      if (n <=? 21)%Z then decimal s ++ zeros (Z.to_nat (n - k))
      else
        match decimal s with
        | String d EmptyString => String d EmptyString ++ "e+" ++ decimal (n - 1)
        | String d more => String d ("." ++ more) ++ "e+" ++ decimal (n - 1)
        | EmptyString => EmptyString
        end
  end.

(** Template-literal conversion of a number. *)
Definition show_number (n : number) : string :=
  match n with
  | NaN => "NaN"
  | Int z =>
      if (Z.abs z <? two53)%Z then decimal z
      else if (z <? 0)%Z then "-" ++ show_magnitude (Z.abs z)
      else show_magnitude z
  | Other shown => shown
  end.

(** The [TypeError] of reading [message] off [null] or [undefined]; the
    wording is the engine's, here V8's. *)
Definition TypeError_reading (what : string) : Thrown :=
  ErrorObject ("Cannot read properties of " ++ what ++ " (reading 'message')").

(** [`${(error as Error).message}`]: the text, or what the read throws. *)
Definition read_message (error : Thrown) : (Thrown + string)%type :=
  match error with
  | ErrorObject message => inr message
  | NoMessage => inr "undefined"
  | Null => inl (TypeError_reading "null")
  | Undefined => inl (TypeError_reading "undefined")
  | Unreadable raised => inl raised
  end.

(** Template-literal conversion of [string | undefined]. *)
Definition show_opt_string (x : option string) : string :=
  match x with
  | Some s => s
  | None => "undefined"
  end.

(** [Array.prototype.join]. *)
Fixpoint join (sep : string) (l : list string) : string :=
  match l with
  | [] => EmptyString
  | [s] => s
  | s :: rest => s ++ sep ++ join sep rest
  end.

(** [Array.prototype.includes] on an array of strings. *)
Fixpoint includes (l : list string) (x : string) : bool :=
  match l with
  | [] => false
  | y :: rest => if String.eqb y x then true else includes rest x
  end.

End JS.
Import JS.

(** ** The driver interface

    Objects handed out by the driver are references. *)

Inductive BrowserManager : Type := ManagerRef (id : nat).
Inductive Page : Type := PageRef (id : nat).
Inductive Locator : Type := LocatorRef (id : nat).
Inductive Buffer : Type := BufferRef (id : nat).

(** What [page.evaluate] hands back: a string, or some other value. *)
Inductive JsValue : Type :=
| JsString (s : string)
| JsOther (id : nat).

Inductive MouseButton : Type := ButtonLeft | ButtonRight | ButtonMiddle | ButtonNone.
Inductive WaitState : Type := Attached | Detached | Visible | Hidden.
Inductive MouseEventType : Type := MousePressed | MouseReleased | MouseMoved | MouseWheel.
Inductive KeyEventType : Type := KeyDown | KeyUp | KeyChar.

Record Viewport : Type := mkViewport { width : number; height : number }.

(** The option object given to [BrowserManager.launch]. *)
Record LaunchOptions : Type := mkLaunchOptions {
  launch_id : option string;
  launch_action : option string;
  launch_headless : bool;
  launch_viewport : option Viewport
}.

Record SnapshotOptions : Type := mkSnapshotOptions {
  snap_interactive : option bool;
  snap_compact : option bool;
  snap_maxDepth : option number
}.

Record Snapshot : Type := mkSnapshot { snapshot_text : string }.

Record NewTabResult : Type := mkNewTabResult { nt_index : number; nt_total : number }.
Record SwitchResult : Type := mkSwitchResult {
  sw_index : number; sw_title : string; sw_url : string
}.
Record TabInfo : Type := mkTabInfo {
  tab_index : number; tab_title : string; tab_url : string; tab_active : bool
}.
Record CloseTabResult : Type := mkCloseTabResult { ct_closed : number; ct_remaining : number }.

Record MouseEventParams : Type := mkMouseEventParams {
  me_type : MouseEventType; me_x : number; me_y : number;
  me_button : option MouseButton; me_clickCount : option number;
  me_deltaX : option number; me_deltaY : option number
}.

Record KeyboardEventParams : Type := mkKeyboardEventParams {
  ke_type : KeyEventType; ke_key : option string;
  ke_code : option string; ke_text : option string
}.

(** [z.union([z.string(), z.array(z.string())])]. *)
Inductive SelectValues : Type :=
| OneValue (v : string)
| ManyValues (vs : list string).

(** One constructor per call the handlers make on the driver or on the
    JavaScript runtime; the index is the type of the value returned. *)
Inductive Call : Type -> Type :=
| NewBrowserManager : Call BrowserManager
| Launch (b : BrowserManager) (opts : LaunchOptions) : Call unit
| IsLaunched (b : BrowserManager) : Call bool
| Close (b : BrowserManager) : Call unit
| GetPage (b : BrowserManager) : Call Page
| GetLocator (b : BrowserManager) (selector : string) : Call Locator
| GetSnapshot (b : BrowserManager) (opts : SnapshotOptions) : Call Snapshot
| NewTab (b : BrowserManager) : Call NewTabResult
| SwitchTo (b : BrowserManager) (index : number) : Call SwitchResult
| ListTabs (b : BrowserManager) : Call (list TabInfo)
| CloseTab (b : BrowserManager) (index : option number) : Call CloseTabResult
| InjectMouseEvent (b : BrowserManager) (p : MouseEventParams) : Call unit
| InjectKeyboardEvent (b : BrowserManager) (p : KeyboardEventParams) : Call unit
| PageGoto (p : Page) (url : string) (waitUntil : option string) : Call unit
| PageTitle (p : Page) : Call string
| PageUrl (p : Page) : Call string
| PageGoBack (p : Page) : Call unit
| PageGoForward (p : Page) : Call unit
| PageReload (p : Page) : Call unit
| PageEvaluate (p : Page) (script : string) : Call JsValue
| PageWaitForSelector (p : Page) (selector : string) (state : WaitState)
    (timeout : number) : Call unit
| PageWaitForURL (p : Page) (url : string) (timeout : number) : Call unit
| PageKeyboardPress (p : Page) (key : string) : Call unit
| PageMouseWheel (p : Page) (x y : number) : Call unit
| PageScreenshot (p : Page) (fullPage : option bool) : Call Buffer
| LocatorClick (l : Locator) (button : option MouseButton)
    (clickCount : option number) : Call unit
| LocatorHover (l : Locator) : Call unit
| LocatorFill (l : Locator) (text : string) : Call unit
| LocatorPressSequentially (l : Locator) (text : string)
    (delay : option number) : Call unit
| LocatorSelectOption (l : Locator) (values : SelectValues) : Call unit
| LocatorCheck (l : Locator) : Call unit
| LocatorUncheck (l : Locator) : Call unit
| LocatorPress (l : Locator) (key : string) : Call unit
| LocatorScrollIntoViewIfNeeded (l : Locator) : Call unit
| LocatorScreenshot (l : Locator) : Call Buffer
| LocatorTextContent (l : Locator) : Call (option string)
| LocatorGetAttribute (l : Locator) (name : string) : Call (option string)
| BufferToBase64 (buf : Buffer) : Call string
| JsonStringify (v : JsValue) : Call (option string)
| SetTimeout (ms : number) : Call unit.

(** A call either returns or throws. *)
Definition result (R : Type) : Type := (Thrown + R)%type.

(** Programs over driver calls. *)
Inductive Prog (A : Type) : Type :=
| Ret (a : A)
| Vis {R : Type} (c : Call R) (k : result R -> Prog A).
Arguments Ret {A} a.
Arguments Vis {A R} c k.

Fixpoint pbind {A B : Type} (p : Prog A) (f : A -> Prog B) : Prog B :=
  match p with
  | Ret a => f a
  | Vis c k => Vis c (fun r => pbind (k r) f)
  end.

(** ** Module state of tools.ts

    [browser] is the singleton declared at the top of [tools.ts].
    [browserConfig] is the object [index.ts] imports from [./tools] and
    writes to; [tools.ts] holds no declaration of it. *)

Record BrowserConfig : Type := mkBrowserConfig { headless : bool }.

Record ModuleState : Type := mkModuleState {
  browser : option BrowserManager;
  browserConfig : BrowserConfig
}.

Definition set_browser (v : option BrowserManager) (s : ModuleState) : ModuleState :=
  mkModuleState v (browserConfig s).

Definition set_headless (v : bool) (s : ModuleState) : ModuleState :=
  mkModuleState (browser s) (mkBrowserConfig v).

(** Modelled from the spec: the initial value of [browserConfig], whose
    declaration is missing from [tools.ts]; the spec gives the process-wide
    headless toggle the default [headless=true]. *)
Definition initial_state : ModuleState :=
  mkModuleState None (mkBrowserConfig true).

(** Code of an [async] function of the module: it reads and writes the module
    state, makes driver calls, and ends by returning or by throwing; what it
    wrote before throwing stays written. *)
Definition M (A : Type) : Type := ModuleState -> Prog (result A * ModuleState).

Definition ret {A : Type} (a : A) : M A := fun s => Ret (inr a, s).

Definition bind {A B : Type} (m : M A) (f : A -> M B) : M B :=
  fun s => pbind (m s) (fun '(r, s') =>
    match r with
    | inl e => Ret (inl e, s')
    | inr a => f a s'
    end).

(** [await c] (or a plain synchronous call [c]): a throw of the driver is a
    throw of the calling code. *)
Definition call {R : Type} (c : Call R) : M R :=
  fun s => Vis c (fun r => Ret (r, s)).

Definition get_browser_var : M (option BrowserManager) :=
  fun s => Ret (inr (browser s), s).

Definition assign_browser (v : option BrowserManager) : M unit :=
  fun s => Ret (inr tt, set_browser v s).

(** [(error as Error).message] inside the template literal of a [catch]
    clause: reading it can throw. *)
Definition message_of (error : Thrown) : M string :=
  fun s => Ret (read_message error, s).

(** [try { body } catch (error) { handler }]. *)
Definition try_catch {A : Type} (body : M A) (handler : Thrown -> M A) : M A :=
  fun s => pbind (body s) (fun '(r, s') =>
    match r with
    | inl e => handler e s'
    | inr a => Ret (inr a, s')
    end).

Declare Scope js_scope.
Delimit Scope js_scope with js.
Notation "x <- m ;; k" := (bind m (fun x => k))
  (at level 61, m at next level, right associativity) : js_scope.
Notation "m ;; k" := (bind m (fun _ => k))
  (at level 61, right associativity) : js_scope.
Local Open Scope js_scope.

(** ** Result envelopes *)

Inductive ContentItem : Type :=
| TextItem (text : option string)
| ImageItem (data : string) (mimeType : string).

(** [isError] is either absent or [true]. *)
Record Envelope : Type := mkEnvelope {
  content : list ContentItem;
  isError : option bool
}.

(** [{ content: [{ type: "text", text }] }]. *)
Definition text_envelope (text : string) : Envelope :=
  mkEnvelope [TextItem (Some text)] None.

(** [{ content: [{ type: "text", text }], isError: true }]. *)
Definition error_envelope (text : string) : Envelope :=
  mkEnvelope [TextItem (Some text)] (Some true).

(** ** tools.ts *)

Definition getBrowser_options : LaunchOptions :=
  mkLaunchOptions (Some "default") (Some "launch") true None.

(** [getBrowser()].  The final [return browser] reads the variable assigned
    two statements earlier. *)
Definition getBrowser : M BrowserManager :=
  cur <- get_browser_var ;;
  match cur with
  | None =>
      b <- call NewBrowserManager ;;
      assign_browser (Some b) ;;
      call (Launch b getBrowser_options) ;;
      ret b
  | Some b => ret b
  end.

(** *** Navigation *)

Record LaunchArgs : Type := mkLaunchArgs {
  la_headless : option bool;
  la_viewport : option Viewport
}.

Definition browserLaunch (args : LaunchArgs) : M Envelope :=
  try_catch
    (cur <- get_browser_var ;;
     launched <- match cur with
                 | Some b => call (IsLaunched b)
                 | None => ret false
                 end ;;
     if launched then ret (text_envelope "Browser already running")
     else
       b <- call NewBrowserManager ;;
       assign_browser (Some b) ;;
       call (Launch b (mkLaunchOptions None None
                         (nullish (la_headless args) true)
                         (la_viewport args))) ;;
       ret (text_envelope "Browser launched successfully"))
    (fun error =>
       text <- message_of error ;;
       ret (error_envelope ("Launch failed: " ++ text))).

Record NavigateArgs : Type := mkNavigateArgs { na_url : string }.

Definition browserNavigate (args : NavigateArgs) : M Envelope :=
  try_catch
    (b <- getBrowser ;;
     page <- call (GetPage b) ;;
     call (PageGoto page (na_url args) (Some "domcontentloaded")) ;;
     title <- call (PageTitle page) ;;
     ret (text_envelope ("Navigated to " ++ na_url args ++ nl ++ "Title: " ++ title)))
    (fun error =>
       text <- message_of error ;;
       ret (error_envelope ("Navigation failed: " ++ text))).

Definition browserBack (_ : unit) : M Envelope :=
  try_catch
    (b <- getBrowser ;;
     page <- call (GetPage b) ;;
     call (PageGoBack page) ;;
     ret (text_envelope "Navigated back"))
    (fun error =>
       text <- message_of error ;;
       ret (error_envelope ("Back failed: " ++ text))).

Definition browserForward (_ : unit) : M Envelope :=
  try_catch
    (b <- getBrowser ;;
     page <- call (GetPage b) ;;
     call (PageGoForward page) ;;
     ret (text_envelope "Navigated forward"))
    (fun error =>
       text <- message_of error ;;
       ret (error_envelope ("Forward failed: " ++ text))).

Definition browserReload (_ : unit) : M Envelope :=
  try_catch
    (b <- getBrowser ;;
     page <- call (GetPage b) ;;
     call (PageReload page) ;;
     ret (text_envelope "Page reloaded"))
    (fun error =>
       text <- message_of error ;;
       ret (error_envelope ("Reload failed: " ++ text))).

(** *** Element interaction *)

Record ClickArgs : Type := mkClickArgs {
  ca_selector : string;
  ca_button : option MouseButton;
  ca_clickCount : option number
}.

Definition browserClick (args : ClickArgs) : M Envelope :=
  try_catch
    (b <- getBrowser ;;
     locator <- call (GetLocator b (ca_selector args)) ;;
     call (LocatorClick locator (ca_button args) (ca_clickCount args)) ;;
     ret (text_envelope ("Clicked " ++ dquote ++ ca_selector args ++ dquote)))
    (fun error =>
       text <- message_of error ;;
       ret (error_envelope ("Click failed: " ++ text))).

Record SelectorArgs : Type := mkSelectorArgs { sa_selector : string }.

Definition browserHover (args : SelectorArgs) : M Envelope :=
  try_catch
    (b <- getBrowser ;;
     locator <- call (GetLocator b (sa_selector args)) ;;
     call (LocatorHover locator) ;;
     ret (text_envelope ("Hovering over " ++ dquote ++ sa_selector args ++ dquote)))
    (fun error =>
       text <- message_of error ;;
       ret (error_envelope ("Hover failed: " ++ text))).

Record FillArgs : Type := mkFillArgs { fa_selector : string; fa_text : string }.

Definition browserFill (args : FillArgs) : M Envelope :=
  try_catch
    (b <- getBrowser ;;
     locator <- call (GetLocator b (fa_selector args)) ;;
     call (LocatorFill locator (fa_text args)) ;;
     ret (text_envelope ("Filled " ++ dquote ++ fa_selector args ++ dquote)))
    (fun error =>
       text <- message_of error ;;
       ret (error_envelope ("Fill failed: " ++ text))).

Record TypeArgs : Type := mkTypeArgs {
  ta_selector : string; ta_text : string; ta_delay : option number
}.

Definition browserType (args : TypeArgs) : M Envelope :=
  try_catch
    (b <- getBrowser ;;
     locator <- call (GetLocator b (ta_selector args)) ;;
     call (LocatorPressSequentially locator (ta_text args) (ta_delay args)) ;;
     ret (text_envelope ("Typed into " ++ dquote ++ ta_selector args ++ dquote)))
    (fun error =>
       text <- message_of error ;;
       ret (error_envelope ("Type failed: " ++ text))).

Record SelectArgs : Type := mkSelectArgs {
  sel_selector : string; sel_values : SelectValues
}.

Definition browserSelect (args : SelectArgs) : M Envelope :=
  try_catch
    (b <- getBrowser ;;
     locator <- call (GetLocator b (sel_selector args)) ;;
     call (LocatorSelectOption locator (sel_values args)) ;;
     ret (text_envelope ("Selected in " ++ dquote ++ sel_selector args ++ dquote)))
    (fun error =>
       text <- message_of error ;;
       ret (error_envelope ("Select failed: " ++ text))).

Definition browserCheck (args : SelectorArgs) : M Envelope :=
  try_catch
    (b <- getBrowser ;;
     locator <- call (GetLocator b (sa_selector args)) ;;
     call (LocatorCheck locator) ;;
     ret (text_envelope ("Checked " ++ dquote ++ sa_selector args ++ dquote)))
    (fun error =>
       text <- message_of error ;;
       ret (error_envelope ("Check failed: " ++ text))).

Definition browserUncheck (args : SelectorArgs) : M Envelope :=
  try_catch
    (b <- getBrowser ;;
     locator <- call (GetLocator b (sa_selector args)) ;;
     call (LocatorUncheck locator) ;;
     ret (text_envelope ("Unchecked " ++ dquote ++ sa_selector args ++ dquote)))
    (fun error =>
       text <- message_of error ;;
       ret (error_envelope ("Uncheck failed: " ++ text))).

Record PressArgs : Type := mkPressArgs { pa_key : string; pa_selector : option string }.

Definition browserPress (args : PressArgs) : M Envelope :=
  try_catch
    (b <- getBrowser ;;
     (if truthy_opt_string (pa_selector args) then
        locator <- call (GetLocator b (nullish (pa_selector args) empty)) ;;
        call (LocatorPress locator (pa_key args))
      else
        page <- call (GetPage b) ;;
        call (PageKeyboardPress page (pa_key args))) ;;
     ret (text_envelope ("Pressed " ++ dquote ++ pa_key args ++ dquote)))
    (fun error =>
       text <- message_of error ;;
       ret (error_envelope ("Press failed: " ++ text))).

Record ScrollArgs : Type := mkScrollArgs {
  sc_selector : option string; sc_x : option number; sc_y : option number
}.

Definition browserScroll (args : ScrollArgs) : M Envelope :=
  try_catch
    (b <- getBrowser ;;
     page <- call (GetPage b) ;;
     (if truthy_opt_string (sc_selector args) then
        locator <- call (GetLocator b (nullish (sc_selector args) empty)) ;;
        call (LocatorScrollIntoViewIfNeeded locator)
      else
        call (PageMouseWheel page (or_number (sc_x args) (Int 0))
                (or_number (sc_y args) (Int 300)))) ;;
     ret (text_envelope "Scrolled"))
    (fun error =>
       text <- message_of error ;;
       ret (error_envelope ("Scroll failed: " ++ text))).

(** *** Screenshot and page information *)

Record ScreenshotArgs : Type := mkScreenshotArgs {
  ss_fullPage : option bool; ss_selector : option string
}.

Definition browserScreenshot (args : ScreenshotArgs) : M Envelope :=
  try_catch
    (b <- getBrowser ;;
     page <- call (GetPage b) ;;
     buffer <- (if truthy_opt_string (ss_selector args) then
                  locator <- call (GetLocator b (nullish (ss_selector args) empty)) ;;
                  call (LocatorScreenshot locator)
                else
                  call (PageScreenshot page (ss_fullPage args))) ;;
     base64 <- call (BufferToBase64 buffer) ;;
     ret (mkEnvelope
            [ImageItem base64 "image/png";
             TextItem (Some "Screenshot captured. Analyze the image to understand page content and layout.")]
            None))
    (fun error =>
       text <- message_of error ;;
       ret (error_envelope ("Screenshot failed: " ++ text))).

Record SnapshotArgs : Type := mkSnapshotArgs {
  sn_interactive : option bool; sn_compact : option bool; sn_maxDepth : option number
}.

Definition browserSnapshot (args : SnapshotArgs) : M Envelope :=
  try_catch
    (b <- getBrowser ;;
     snapshot <- call (GetSnapshot b (mkSnapshotOptions (sn_interactive args)
                                        (sn_compact args) (sn_maxDepth args))) ;;
     ret (text_envelope
            ("Accessibility tree:" ++ nl ++ snapshot_text snapshot ++ nl ++ nl ++
             "Use element refs (e.g., 'e1', 'e2') with browser_click, browser_fill, etc.")))
    (fun error =>
       text <- message_of error ;;
       ret (error_envelope ("Snapshot failed: " ++ text))).

Definition browserGetText (args : SelectorArgs) : M Envelope :=
  try_catch
    (b <- getBrowser ;;
     locator <- call (GetLocator b (sa_selector args)) ;;
     text <- call (LocatorTextContent locator) ;;
     ret (text_envelope (or_string text "(empty)")))
    (fun error =>
       text <- message_of error ;;
       ret (error_envelope ("Get text failed: " ++ text))).

Record GetAttributeArgs : Type := mkGetAttributeArgs {
  ga_selector : string; ga_attribute : string
}.

Definition browserGetAttribute (args : GetAttributeArgs) : M Envelope :=
  try_catch
    (b <- getBrowser ;;
     locator <- call (GetLocator b (ga_selector args)) ;;
     value <- call (LocatorGetAttribute locator (ga_attribute args)) ;;
     ret (text_envelope (or_string value "(null)")))
    (fun error =>
       text <- message_of error ;;
       ret (error_envelope ("Get attribute failed: " ++ text))).

Definition browserGetUrl (_ : unit) : M Envelope :=
  try_catch
    (b <- getBrowser ;;
     page <- call (GetPage b) ;;
     url <- call (PageUrl page) ;;
     ret (text_envelope url))
    (fun error =>
       text <- message_of error ;;
       ret (error_envelope ("Get URL failed: " ++ text))).

Definition browserGetTitle (_ : unit) : M Envelope :=
  try_catch
    (b <- getBrowser ;;
     page <- call (GetPage b) ;;
     title <- call (PageTitle page) ;;
     ret (text_envelope title))
    (fun error =>
       text <- message_of error ;;
       ret (error_envelope ("Get title failed: " ++ text))).

Record EvaluateArgs : Type := mkEvaluateArgs { ev_script : string }.

Definition browserEvaluate (args : EvaluateArgs) : M Envelope :=
  try_catch
    (b <- getBrowser ;;
     page <- call (GetPage b) ;;
     result <- call (PageEvaluate page (ev_script args)) ;;
     text <- match result with
             | JsString s => ret (Some s)
             | JsOther _ => call (JsonStringify result)
             end ;;
     ret (mkEnvelope [TextItem text] None))
    (fun error =>
       text <- message_of error ;;
       ret (error_envelope ("Evaluate failed: " ++ text))).

(** *** Waiting *)

Record WaitForSelectorArgs : Type := mkWaitForSelectorArgs {
  ws_selector : string; ws_state : option WaitState; ws_timeout : option number
}.

(** [x || d] on the [state] enum: each of its literals is a non-empty
    string, so only an omitted state takes the default. *)
Definition or_state (x : option WaitState) (d : WaitState) : WaitState :=
  match x with
  | Some v => v
  | None => d
  end.

Definition browserWaitForSelector (args : WaitForSelectorArgs) : M Envelope :=
  try_catch
    (b <- getBrowser ;;
     page <- call (GetPage b) ;;
     call (PageWaitForSelector page (ws_selector args)
             (or_state (ws_state args) Visible)
             (or_number (ws_timeout args) (Int 30000))) ;;
     ret (text_envelope ("Element " ++ dquote ++ ws_selector args ++ dquote ++ " found")))
    (fun error =>
       text <- message_of error ;;
       ret (error_envelope ("Wait failed: " ++ text))).

Record WaitForUrlArgs : Type := mkWaitForUrlArgs {
  wu_url : string; wu_timeout : option number
}.

Definition browserWaitForUrl (args : WaitForUrlArgs) : M Envelope :=
  try_catch
    (b <- getBrowser ;;
     page <- call (GetPage b) ;;
     call (PageWaitForURL page (wu_url args) (or_number (wu_timeout args) (Int 30000))) ;;
     ret (text_envelope ("URL matched: " ++ wu_url args)))
    (fun error =>
       text <- message_of error ;;
       ret (error_envelope ("Wait for URL failed: " ++ text))).

Record WaitArgs : Type := mkWaitArgs { wa_ms : number }.

Definition browserWait (args : WaitArgs) : M Envelope :=
  try_catch
    (call (SetTimeout (wa_ms args)) ;;
     ret (text_envelope ("Waited " ++ show_number (wa_ms args) ++ "ms")))
    (fun error =>
       text <- message_of error ;;
       ret (error_envelope ("Wait failed: " ++ text))).

(** *** Tab management *)

Record NewTabArgs : Type := mkNewTabArgs { nta_url : option string }.

Definition browserNewTab (args : NewTabArgs) : M Envelope :=
  try_catch
    (b <- getBrowser ;;
     result <- call (NewTab b) ;;
     (if truthy_opt_string (nta_url args) then
        page <- call (GetPage b) ;;
        call (PageGoto page (nullish (nta_url args) empty) None)
      else ret tt) ;;
     ret (text_envelope
            ("Opened tab " ++ show_number (nt_index result) ++ " of " ++
             show_number (nt_total result) ++
             (if truthy_opt_string (nta_url args)
              then " at " ++ nullish (nta_url args) empty
              else empty))))
    (fun error =>
       text <- message_of error ;;
       ret (error_envelope ("New tab failed: " ++ text))).

Record SwitchTabArgs : Type := mkSwitchTabArgs { st_index : number }.

Definition browserSwitchTab (args : SwitchTabArgs) : M Envelope :=
  try_catch
    (b <- getBrowser ;;
     result <- call (SwitchTo b (st_index args)) ;;
     ret (text_envelope
            ("Switched to tab " ++ show_number (sw_index result) ++ ": " ++
             sw_title result ++ nl ++ "URL: " ++ sw_url result)))
    (fun error =>
       text <- message_of error ;;
       ret (error_envelope ("Switch tab failed: " ++ text))).

(** The arrow of the tab list, U+2192, as its three UTF-8 bytes, and a space. *)
Definition active_mark : string :=
  String "226"%char (String "134"%char (String "146"%char " ")).

Definition show_tab (t : TabInfo) : string :=
  (if tab_active t then active_mark else "  ") ++
  "[" ++ show_number (tab_index t) ++ "] " ++ tab_title t ++ nl ++
  "     " ++ tab_url t.

Definition browserListTabs (_ : unit) : M Envelope :=
  try_catch
    (b <- getBrowser ;;
     tabs <- call (ListTabs b) ;;
     ret (text_envelope (join nl (map show_tab tabs))))
    (fun error =>
       text <- message_of error ;;
       ret (error_envelope ("List tabs failed: " ++ text))).

Record CloseTabArgs : Type := mkCloseTabArgs { cta_index : option number }.

Definition browserCloseTab (args : CloseTabArgs) : M Envelope :=
  try_catch
    (b <- getBrowser ;;
     result <- call (CloseTab b (cta_index args)) ;;
     ret (text_envelope
            ("Closed tab " ++ show_number (ct_closed result) ++ ", " ++
             show_number (ct_remaining result) ++ " tabs remaining")))
    (fun error =>
       text <- message_of error ;;
       ret (error_envelope ("Close tab failed: " ++ text))).

(** *** Low-level input *)

Definition show_mouse_type (t : MouseEventType) : string :=
  match t with
  | MousePressed => "mousePressed"
  | MouseReleased => "mouseReleased"
  | MouseMoved => "mouseMoved"
  | MouseWheel => "mouseWheel"
  end.

Definition show_key_type (t : KeyEventType) : string :=
  match t with
  | KeyDown => "keyDown"
  | KeyUp => "keyUp"
  | KeyChar => "char"
  end.

Definition browserMouseEvent (args : MouseEventParams) : M Envelope :=
  try_catch
    (b <- getBrowser ;;
     call (InjectMouseEvent b
             (mkMouseEventParams (me_type args) (me_x args) (me_y args)
                (me_button args) (me_clickCount args)
                (me_deltaX args) (me_deltaY args))) ;;
     ret (text_envelope
            ("Mouse " ++ show_mouse_type (me_type args) ++ " at (" ++
             show_number (me_x args) ++ ", " ++ show_number (me_y args) ++ ")")))
    (fun error =>
       text <- message_of error ;;
       ret (error_envelope ("Mouse event failed: " ++ text))).

Definition browserKeyboardEvent (args : KeyboardEventParams) : M Envelope :=
  try_catch
    (b <- getBrowser ;;
     call (InjectKeyboardEvent b
             (mkKeyboardEventParams (ke_type args) (ke_key args)
                (ke_code args) (ke_text args))) ;;
     ret (text_envelope
            ("Keyboard " ++ show_key_type (ke_type args) ++ ": " ++
             show_opt_string (or_opt_string (ke_key args) (ke_text args)))))
    (fun error =>
       text <- message_of error ;;
       ret (error_envelope ("Keyboard event failed: " ++ text))).

(** *** Closing *)

Definition browserClose (_ : unit) : M Envelope :=
  try_catch
    (cur <- get_browser_var ;;
     match cur with
     | Some b =>
         call (Close b) ;;
         assign_browser None
     | None => ret tt
     end ;;
     ret (text_envelope "Browser closed"))
    (fun error =>
       text <- message_of error ;;
       ret (error_envelope ("Close failed: " ++ text))).

(** [closeBrowser()], the exported clean-up function. *)
Definition closeBrowser : M unit :=
  cur <- get_browser_var ;;
  match cur with
  | Some b =>
      call (Close b) ;;
      assign_browser None
  | None => ret tt
  end.

(** *** The MCP server *)

Record Tool : Type := mkTool {
  tool_name : string;
  tool_args : Type;
  tool_handler : tool_args -> M Envelope
}.

(** The [tools] array of [browserToolsServer]. *)
Definition browserToolsServer : list Tool :=
  [ mkTool "browser_launch" LaunchArgs browserLaunch;
    mkTool "browser_navigate" NavigateArgs browserNavigate;
    mkTool "browser_back" unit browserBack;
    mkTool "browser_forward" unit browserForward;
    mkTool "browser_reload" unit browserReload;
    mkTool "browser_click" ClickArgs browserClick;
    mkTool "browser_hover" SelectorArgs browserHover;
    mkTool "browser_fill" FillArgs browserFill;
    mkTool "browser_type" TypeArgs browserType;
    mkTool "browser_select" SelectArgs browserSelect;
    mkTool "browser_check" SelectorArgs browserCheck;
    mkTool "browser_uncheck" SelectorArgs browserUncheck;
    mkTool "browser_press" PressArgs browserPress;
    mkTool "browser_scroll" ScrollArgs browserScroll;
    mkTool "browser_screenshot" ScreenshotArgs browserScreenshot;
    mkTool "browser_snapshot" SnapshotArgs browserSnapshot;
    mkTool "browser_get_text" SelectorArgs browserGetText;
    mkTool "browser_get_attribute" GetAttributeArgs browserGetAttribute;
    mkTool "browser_get_url" unit browserGetUrl;
    mkTool "browser_get_title" unit browserGetTitle;
    mkTool "browser_evaluate" EvaluateArgs browserEvaluate;
    mkTool "browser_wait_for_selector" WaitForSelectorArgs browserWaitForSelector;
    mkTool "browser_wait_for_url" WaitForUrlArgs browserWaitForUrl;
    mkTool "browser_wait" WaitArgs browserWait;
    mkTool "browser_new_tab" NewTabArgs browserNewTab;
    mkTool "browser_switch_tab" SwitchTabArgs browserSwitchTab;
    mkTool "browser_list_tabs" unit browserListTabs;
    mkTool "browser_close_tab" CloseTabArgs browserCloseTab;
    mkTool "browser_mouse_event" MouseEventParams browserMouseEvent;
    mkTool "browser_keyboard_event" KeyboardEventParams browserKeyboardEvent;
    mkTool "browser_close" unit browserClose ].

(** ** index.ts: the start-up flags

    [args] is [process.argv.slice(2)]. *)
Definition parse_cli (args : list string) (s : ModuleState) : ModuleState :=
  if includes args "--no-headless" || includes args "--show-browser"
  then set_headless false s
  else s.

(** ** Running a program against a driver *)

(** A driver answers every call from its current world, by a value or by a
    throw, and moves to a new world. *)
Record Driver : Type := mkDriver {
  World : Type;
  exec : forall R : Type, Call R -> World -> result R * World
}.
Arguments exec d {R} c w.

(** A call together with what it produced. *)
Inductive Event : Type :=
| Ev {R : Type} (c : Call R) (r : result R).

Fixpoint run (d : Driver) {A : Type} (p : Prog A) (w : World d)
  : A * World d * list Event :=
  match p with
  | Ret a => (a, w, [])
  | Vis c k =>
      let (r, w1) := exec d c w in
      let '(a, w2, tr) := run d (k r) w1 in
      (a, w2, Ev c r :: tr)
  end.

(** One invocation of a tool by the framework. *)
Definition invoke (d : Driver) (t : Tool) (args : tool_args t)
    (s : ModuleState) (w : World d)
  : result Envelope * ModuleState * World d * list Event :=
  run d (tool_handler t args s) w.

(** *** Reading a trace *)

Definition returned (ev : Event) : bool :=
  match ev with
  | Ev _ (inr _) => true
  | Ev _ (inl _) => false
  end.

Definition thrown (ev : Event) : option Thrown :=
  match ev with
  | Ev _ (inl e) => Some e
  | Ev _ (inr _) => None
  end.

(** [pick f tr]: what [f] reads off the events of [tr], in order. *)
Fixpoint pick {A : Type} (f : Event -> option A) (tr : list Event) : list A :=
  match tr with
  | [] => []
  | ev :: rest =>
      match f ev with
      | Some a => a :: pick f rest
      | None => pick f rest
      end
  end.

(** A [new BrowserManager()] and the object it produced. *)
Definition new_manager_call (ev : Event) : option (result BrowserManager) :=
  match ev with
  | Ev c r =>
      match c in Call T return result T -> option (result BrowserManager) with
      | NewBrowserManager => fun r => Some r
      | _ => fun _ => None
      end r
  end.

(** A [launch] call: the manager launched and the options given. *)
Definition launch_call (ev : Event) : option (BrowserManager * LaunchOptions) :=
  match ev with
  | Ev c _ =>
      match c with
      | Launch b opts => Some (b, opts)
      | _ => None
      end
  end.

(** The manager a call is made on, for the calls made on a manager. *)
Definition manager_of (ev : Event) : option BrowserManager :=
  match ev with
  | Ev c _ =>
      match c with
      | Launch b _ | IsLaunched b | Close b | GetPage b | GetLocator b _
      | GetSnapshot b _ | NewTab b | SwitchTo b _ | ListTabs b | CloseTab b _
      | InjectMouseEvent b _ | InjectKeyboardEvent b _ => Some b
      | _ => None
      end
  end.

(** The arguments of a [waitForSelector] call. *)
Definition wait_selector_call (ev : Event) : option (string * WaitState * number) :=
  match ev with
  | Ev c _ =>
      match c with
      | PageWaitForSelector _ sel st t => Some (sel, st, t)
      | _ => None
      end
  end.

(** The arguments of a [waitForURL] call. *)
Definition wait_url_call (ev : Event) : option (string * number) :=
  match ev with
  | Ev c _ =>
      match c with
      | PageWaitForURL _ url t => Some (url, t)
      | _ => None
      end
  end.

(** The error of a [waitForSelector] or [waitForURL] call that threw. *)
Definition wait_threw (ev : Event) : option Thrown :=
  match ev with
  | Ev c r =>
      match c in Call T return result T -> option Thrown with
      | PageWaitForSelector _ _ _ _ | PageWaitForURL _ _ _ =>
          fun r => match r with inl e => Some e | inr _ => None end
      | _ => fun _ => None
      end r
  end.

(** What a [textContent] call returned. *)
Definition text_content_read (ev : Event) : option (option string) :=
  match ev with
  | Ev c r =>
      match c in Call T return result T -> option (option string) with
      | LocatorTextContent _ =>
          fun r => match r with inr v => Some v | inl _ => None end
      | _ => fun _ => None
      end r
  end.

(** What a [getAttribute] call returned. *)
Definition attribute_read (ev : Event) : option (option string) :=
  match ev with
  | Ev c r =>
      match c in Call T return result T -> option (option string) with
      | LocatorGetAttribute _ _ =>
          fun r => match r with inr v => Some v | inl _ => None end
      | _ => fun _ => None
      end r
  end.

(** The calls that act on an element through a locator. *)
Definition acts_on_element (ev : Event) : bool :=
  match ev with
  | Ev c _ =>
      match c with
      | LocatorClick _ _ _ | LocatorHover _ | LocatorFill _ _
      | LocatorPressSequentially _ _ _ | LocatorSelectOption _ _
      | LocatorCheck _ | LocatorUncheck _ | LocatorPress _ _
      | LocatorScrollIntoViewIfNeeded _ => true
      | _ => false
      end
  end.

(** The error marker of what a handler produced. *)
Definition isError_of (r : result Envelope) : option bool :=
  match r with
  | inr env => isError env
  | inl _ => None
  end.

(** What a handler with failure prefix [prefix] ends with when its body
    threw [error]: the error envelope with the message read off [error], or
    the throw of that read. *)
Definition caught (prefix : string) (error : Thrown) : result Envelope :=
  match read_message error with
  | inr text => inr (error_envelope (prefix ++ ": " ++ text))
  | inl raised => inl raised
  end.

(** A call that returned, or threw a value whose message can be read. *)
Definition readable (ev : Event) : bool :=
  match ev with
  | Ev _ (inl e) => match read_message e with inr _ => true | inl _ => false end
  | Ev _ (inr _) => true
  end.

(** The outcome of a run with trace [tr] is an envelope whenever every value
    thrown in it has a message that can be read. *)
Definition envelope_if_readable (tr : list Event) (out : result Envelope) : Prop :=
  forallb readable tr = true -> exists env, out = inr env.

(** How the calls of one handler body ended: all returned, or all but the
    last returned and the last threw. *)
Inductive Ending : Type :=
| AllReturned
| LastThrew (e : Thrown)
| ThrewEarlier.

Fixpoint ending (tr : list Event) : Ending :=
  match tr with
  | [] => AllReturned
  | ev :: rest =>
      match thrown ev, rest with
      | None, _ => ending rest
      | Some e, [] => LastThrew e
      | Some _, _ :: _ => ThrewEarlier
      end
  end.

(** ** The failure prefix of each command *)

Definition failure_prefix (name : string) : string :=
  if String.eqb name "browser_launch" then "Launch failed"
  else if String.eqb name "browser_navigate" then "Navigation failed"
  else if String.eqb name "browser_back" then "Back failed"
  else if String.eqb name "browser_forward" then "Forward failed"
  else if String.eqb name "browser_reload" then "Reload failed"
  else if String.eqb name "browser_click" then "Click failed"
  else if String.eqb name "browser_hover" then "Hover failed"
  else if String.eqb name "browser_fill" then "Fill failed"
  else if String.eqb name "browser_type" then "Type failed"
  else if String.eqb name "browser_select" then "Select failed"
  else if String.eqb name "browser_check" then "Check failed"
  else if String.eqb name "browser_uncheck" then "Uncheck failed"
  else if String.eqb name "browser_press" then "Press failed"
  else if String.eqb name "browser_scroll" then "Scroll failed"
  else if String.eqb name "browser_screenshot" then "Screenshot failed"
  else if String.eqb name "browser_snapshot" then "Snapshot failed"
  else if String.eqb name "browser_get_text" then "Get text failed"
  else if String.eqb name "browser_get_attribute" then "Get attribute failed"
  else if String.eqb name "browser_get_url" then "Get URL failed"
  else if String.eqb name "browser_get_title" then "Get title failed"
  else if String.eqb name "browser_evaluate" then "Evaluate failed"
  else if String.eqb name "browser_wait_for_selector" then "Wait failed"
  else if String.eqb name "browser_wait_for_url" then "Wait for URL failed"
  else if String.eqb name "browser_wait" then "Wait failed"
  else if String.eqb name "browser_new_tab" then "New tab failed"
  else if String.eqb name "browser_switch_tab" then "Switch tab failed"
  else if String.eqb name "browser_list_tabs" then "List tabs failed"
  else if String.eqb name "browser_close_tab" then "Close tab failed"
  else if String.eqb name "browser_mouse_event" then "Mouse event failed"
  else if String.eqb name "browser_keyboard_event" then "Keyboard event failed"
  else if String.eqb name "browser_close" then "Close failed"
  else EmptyString.

(** The commands that obtain the session through [getBrowser]: all but
    [browser_launch], [browser_close] and [browser_wait]. *)
Definition session_requiring (name : string) : bool :=
  negb (String.eqb name "browser_launch" || String.eqb name "browser_close"
        || String.eqb name "browser_wait").

(** ** The browser driver of the spec

    [tools.ts] imports [BrowserManager] from the agent-browser package; its
    code is not part of the sources.  The spec describes what the command
    layer expects of it: the Session Handle (4.1), the Reference Resolver
    (4.2), the Snapshot Service (4.3) and the Tab Registry (4.4). *)

Module SpecDriver.

(** Modelled from the spec: the errors of the taxonomy (7) that the driver
    raises. *)
Definition SessionAbsentError : Thrown :=
  ErrorObject "Browser not launched. Call launch first.".

Definition UnknownReferenceError (token : string) : Thrown :=
  ErrorObject ("UnknownReferenceError: " ++ token).

Definition IndexOutOfRangeError (index : number) : Thrown :=
  ErrorObject ("IndexOutOfRangeError: " ++ show_number index).

Definition DriverTimeoutError (timeout : number) : Thrown :=
  ErrorObject ("Timeout " ++ show_number timeout ++ "ms exceeded.").

Definition DriverActionError (what : string) : Thrown :=
  ErrorObject ("DriverActionError: " ++ what).

(** Modelled from the spec: a structural node of a page, in document order;
    the selector that targets it, its line in the structural description,
    whether it is interactive, its depth, its text and attributes, and the
    clicks delivered to it. *)
Record Node : Type := mkNode {
  node_selector : string;
  node_label : string;
  node_interactive : bool;
  node_depth : nat;
  node_text : option string;
  node_attributes : list (string * string);
  node_clicks : nat
}.

(** Modelled from the spec: a Page (3): URL, title and content. *)
Record PageState : Type := mkPageState {
  page_url : string;
  page_title : string;
  page_nodes : list Node
}.

(** A node of a page: the page object and the position in document order. *)
Definition Target : Type := (nat * nat)%type.

(** Modelled from the spec: a [BrowserManager] object: the Session it holds
    (liveness flag, launch configuration), its tab registry (the ordered
    Pages and the active pointer) and the reference table of the current
    snapshot generation (3). *)
Record Session : Type := mkSession {
  live : bool;
  config : option LaunchOptions;
  tabs : list nat;
  active : nat;
  refTable : list (string * Target);
  generation : nat
}.

(** Modelled from the spec: the state of the driver: the manager, page and
    locator objects created so far, the sites that can be navigated to, and
    the number of coming launches the environment makes fail. *)
Record SpecWorld : Type := mkSpecWorld {
  sessions : list Session;
  pages : list PageState;
  locators : list (option Target);
  web : list (string * PageState);
  launch_faults : nat
}.

Definition absent : Session := mkSession false None [] 0 [] 0.
Definition blank : PageState := mkPageState "about:blank" EmptyString [].

Fixpoint set_nth {A : Type} (i : nat) (x : A) (l : list A) : list A :=
  match l, i with
  | [], _ => []
  | _ :: rest, O => x :: rest
  | y :: rest, S j => y :: set_nth j x rest
  end.

Fixpoint remove_nth {A : Type} (i : nat) (l : list A) : list A :=
  match l, i with
  | [], _ => []
  | _ :: rest, O => rest
  | y :: rest, S j => y :: remove_nth j rest
  end.

Definition session_of (w : SpecWorld) (b : BrowserManager) : Session :=
  match b with ManagerRef i => nth i (sessions w) absent end.

Definition put_session (w : SpecWorld) (b : BrowserManager) (x : Session) : SpecWorld :=
  match b with
  | ManagerRef i =>
      mkSpecWorld (set_nth i x (sessions w)) (pages w) (locators w)
        (web w) (launch_faults w)
  end.

Definition put_page (w : SpecWorld) (pid : nat) (x : PageState) : SpecWorld :=
  mkSpecWorld (sessions w) (set_nth pid x (pages w)) (locators w)
    (web w) (launch_faults w).

Definition page_of (w : SpecWorld) (pid : nat) : PageState :=
  nth pid (pages w) blank.

(** The Page the registry marks active, when the session is live. *)
Definition active_page (w : SpecWorld) (b : BrowserManager) : option nat :=
  let x := session_of w b in
  if live x then nth_error (tabs x) (active x) else None.

(** *** Reference tokens (4.2, 4.3) *)

Definition is_digit (c : ascii) : bool :=
  let n := nat_of_ascii c in Nat.leb 48 n && Nat.leb n 57.

Fixpoint all_digits (s : string) : bool :=
  match s with
  | EmptyString => true
  | String c rest => is_digit c && all_digits rest
  end.

(** Modelled from the spec: the reserved short-token syntax that tells a
    reference from a structural selector (4.2).  The tool descriptions of
    [tools.ts] show it: [e1], [@e1].  The token of a locator string is [e]
    and its digits, with an optional leading [@] dropped. *)
Definition reference_token (locator : string) : option string :=
  let body := match locator with
              | String "@"%char rest => rest
              | _ => locator
              end in
  match body with
  | String "e"%char (String c rest) =>
      if all_digits (String c rest) then Some body else None
  | _ => None
  end.

Definition token (n : nat) : string :=
  "e" ++ NilZero.string_of_uint (Nat.to_uint n).

Fixpoint lookup {A : Type} (key : string) (l : list (string * A)) : option A :=
  match l with
  | [] => None
  | (k, v) :: rest => if String.eqb k key then Some v else lookup key rest
  end.

(** The filter of a snapshot: interactive-only and depth limit. *)
Definition included (opts : SnapshotOptions) (n : Node) : bool :=
  (if nullish (snap_interactive opts) false then node_interactive n else true)
  && match snap_maxDepth opts with
     | Some (Int z) => Z.leb (Z.of_nat (node_depth n)) z
     | _ => true
     end.

(** Modelled from the spec: token minting (4.3), deterministic and in
    document order: the [k]-th included node gets token [ek], so that two
    snapshots of an unchanged page mint identical tokens. *)
Fixpoint mint (opts : SnapshotOptions) (nodes : list Node) (pos next : nat)
  : list (string * nat * Node) :=
  match nodes with
  | [] => []
  | n :: rest =>
      if included opts n
      then (token next, pos, n) :: mint opts rest (S pos) (S next)
      else mint opts rest (S pos) next
  end.

(** Modelled from the spec: the fresh reference table a snapshot of page
    [pid] produces (4.3). *)
Definition minted_table (opts : SnapshotOptions) (pid : nat) (p : PageState)
  : list (string * Target) :=
  map (fun '(t, pos, _) => (t, (pid, pos))) (mint opts (page_nodes p) 0 1).

Definition render (opts : SnapshotOptions) (p : PageState) : string :=
  join nl (map (fun '(t, _, n) => node_label n ++ " [ref=" ++ t ++ "]")
             (mint opts (page_nodes p) 0 1)).

Fixpoint find_selector (sel : string) (nodes : list Node) (pos : nat) : option nat :=
  match nodes with
  | [] => None
  | n :: rest =>
      if String.eqb (node_selector n) sel then Some pos
      else find_selector sel rest (S pos)
  end.

(** *** The tab registry (4.4) *)

(** Modelled from the spec: [index] is a currently valid Page index of the
    registry of [b] (4.4). *)
Definition valid_index (w : SpecWorld) (b : BrowserManager) (index : number)
  : option nat :=
  match index with
  | Int z =>
      if Z.leb 0 z && Z.ltb z (Z.of_nat (List.length (tabs (session_of w b))))
      then Some (Z.to_nat z) else None
  | NaN => None
  | Other _ => None
  end.

Definition number_of_nat (n : nat) : number := Int (Z.of_nat n).

Definition tab_info (w : SpecWorld) (x : Session) (i pid : nat) : TabInfo :=
  mkTabInfo (number_of_nat i) (page_title (page_of w pid))
    (page_url (page_of w pid)) (Nat.eqb i (active x)).

Fixpoint tab_infos (w : SpecWorld) (x : Session) (i : nat) (l : list nat)
  : list TabInfo :=
  match l with
  | [] => []
  | pid :: rest => tab_info w x i pid :: tab_infos w x (S i) rest
  end.

(** Modelled from the spec: which tab is active once tab [i] is closed
    (4.4): a closed tab below the active one shifts it down; closing the
    active tab activates the one before it, or the new last tab when none
    precedes. *)
Definition active_after_close (x : Session) (i : nat) : nat :=
  if Nat.ltb i (active x) then active x - 1
  else if Nat.eqb i (active x)
       then (if Nat.eqb i 0 then List.length (tabs x) - 2 else i - 1)
       else active x.

(** *** The calls *)

Definition alloc_page (w : SpecWorld) (p : PageState) : nat * SpecWorld :=
  (List.length (pages w),
   mkSpecWorld (sessions w) (pages w ++ [p]) (locators w) (web w) (launch_faults w)).

Definition alloc_locator (w : SpecWorld) (t : option Target) : Locator * SpecWorld :=
  (LocatorRef (List.length (locators w)),
   mkSpecWorld (sessions w) (pages w) (locators w ++ [t]) (web w) (launch_faults w)).

(** The node a locator object targets, if it targets one. *)
Definition target_of (w : SpecWorld) (l : Locator) : option Target :=
  match l with LocatorRef i => nth i (locators w) None end.

Definition node_at (w : SpecWorld) (t : Target) : option Node :=
  nth_error (page_nodes (page_of w (fst t))) (snd t).

(** An action on the element of a locator: it needs an element. *)
Definition on_element {R : Type} (w : SpecWorld) (l : Locator)
    (act : Target -> Node -> result R * SpecWorld) : result R * SpecWorld :=
  match target_of w l with
  | Some t =>
      match node_at w t with
      | Some n => act t n
      | None => (inl (DriverActionError "element is detached"), w)
      end
  | None => (inl (DriverActionError "no element matches the selector"), w)
  end.

Definition click_node (w : SpecWorld) (t : Target) (n : Node) : SpecWorld :=
  let p := page_of w (fst t) in
  put_page w (fst t)
    (mkPageState (page_url p) (page_title p)
       (set_nth (snd t)
          (mkNode (node_selector n) (node_label n) (node_interactive n)
             (node_depth n) (node_text n) (node_attributes n)
             (S (node_clicks n)))
          (page_nodes p))).

(** Modelled from the spec: references are invalidated whenever the page
    navigates (3), so navigation empties the reference tables. *)
Definition drop_references (x : Session) : Session :=
  mkSession (live x) (config x) (tabs x) (active x) [] (generation x).

Definition navigate (w : SpecWorld) (pid : nat) (p : PageState) : SpecWorld :=
  mkSpecWorld (map drop_references (sessions w)) (set_nth pid p (pages w))
    (locators w) (web w) (launch_faults w).

(** Modelled from the spec: [launch] of the Session Handle (4.1): the
    session becomes live with the given configuration and one blank page,
    which is active; the environment may make a launch fail. *)
Definition launch (w : SpecWorld) (b : BrowserManager) (opts : LaunchOptions)
  : result unit * SpecWorld :=
  match launch_faults w with
  | S k =>
      (inl (DriverActionError "the browser could not be launched"),
       mkSpecWorld (sessions w) (pages w) (locators w) (web w) k)
  | O =>
      let (pid, w1) := alloc_page w blank in
      (inr tt, put_session w1 b (mkSession true (Some opts) [pid] 0 [] 0))
  end.

(** Modelled from the spec: [resolve] of the Reference Resolver (4.2).  A
    reference token is looked up in the table of the current generation and
    fails with [UnknownReferenceError] when it is not found; a structural
    selector goes to the selector-based targeting of the page. *)
Definition getLocator (w : SpecWorld) (b : BrowserManager) (selector : string)
  : result Locator * SpecWorld :=
  match active_page w b with
  | None => (inl SessionAbsentError, w)
  | Some pid =>
      match reference_token selector with
      | Some t =>
          match lookup t (refTable (session_of w b)) with
          | Some target =>
              let (l, w1) := alloc_locator w (Some target) in (inr l, w1)
          | None => (inl (UnknownReferenceError selector), w)
          end
      | None =>
          let found := find_selector selector (page_nodes (page_of w pid)) 0 in
          let (l, w1) := alloc_locator w (option_map (fun pos => (pid, pos)) found) in
          (inr l, w1)
      end
  end.

(** Modelled from the spec: [snapshot] of the Snapshot Service (4.3): the
    rendering of the active page, and a fresh table that replaces the table
    of the current generation. *)
Definition getSnapshot (w : SpecWorld) (b : BrowserManager) (opts : SnapshotOptions)
  : result Snapshot * SpecWorld :=
  match active_page w b with
  | None => (inl SessionAbsentError, w)
  | Some pid =>
      let x := session_of w b in
      let p := page_of w pid in
      (inr (mkSnapshot (render opts p)),
       put_session w b
         (mkSession (live x) (config x) (tabs x) (active x)
            (minted_table opts pid p) (S (generation x))))
  end.

(** Modelled from the spec: [newTab] of the Tab Registry (4.4): a page is
    opened, appended and made active. *)
Definition newTab (w : SpecWorld) (b : BrowserManager)
  : result NewTabResult * SpecWorld :=
  let x := session_of w b in
  if live x then
    let (pid, w1) := alloc_page w blank in
    let n := List.length (tabs x) in
    (inr (mkNewTabResult (number_of_nat n) (number_of_nat (S n))),
     put_session w1 b
       (mkSession true (config x) (tabs x ++ [pid]) n (refTable x) (generation x)))
  else (inl SessionAbsentError, w).

(** Modelled from the spec: [switchTo] of the Tab Registry (4.4): it fails
    with [IndexOutOfRangeError] if the index is not a currently valid Page
    index, and otherwise marks that Page active and returns its identity. *)
Definition switchTo (w : SpecWorld) (b : BrowserManager) (index : number)
  : result SwitchResult * SpecWorld :=
  let x := session_of w b in
  match valid_index w b index with
  | None => (inl (IndexOutOfRangeError index), w)
  | Some i =>
      let p := page_of w (nth i (tabs x) 0) in
      (inr (mkSwitchResult (number_of_nat i) (page_title p) (page_url p)),
       put_session w b
         (mkSession (live x) (config x) (tabs x) i (refTable x) (generation x)))
  end.

(** Modelled from the spec: [closeTab] of the Tab Registry (4.4): it closes
    the Page at the index, or the active Page when the index is omitted, and
    fails when there is no such Page. *)
Definition closeTab (w : SpecWorld) (b : BrowserManager) (index : option number)
  : result CloseTabResult * SpecWorld :=
  let x := session_of w b in
  let chosen := match index with
                | Some n => n
                | None => number_of_nat (active x)
                end in
  match valid_index w b chosen with
  | None => (inl (IndexOutOfRangeError chosen), w)
  | Some i =>
      (inr (mkCloseTabResult (number_of_nat i)
              (number_of_nat (List.length (tabs x) - 1))),
       put_session w b
         (mkSession (live x) (config x) (remove_nth i (tabs x))
            (active_after_close x i) (refTable x) (generation x)))
  end.

Definition on_session (w : SpecWorld) (b : BrowserManager)
  : result unit * SpecWorld :=
  if live (session_of w b) then (inr tt, w) else (inl SessionAbsentError, w).

Definition goto (w : SpecWorld) (p : Page) (url : string)
  : result unit * SpecWorld :=
  match p with
  | PageRef pid =>
      match lookup url (web w) with
      | Some site => (inr tt, navigate w pid site)
      | None => (inl (DriverActionError ("cannot reach " ++ url)), w)
      end
  end.

Definition waitForSelector (w : SpecWorld) (p : Page) (selector : string)
    (state : WaitState) (timeout : number) : result unit * SpecWorld :=
  match p with
  | PageRef pid =>
      let present :=
        match find_selector selector (page_nodes (page_of w pid)) 0 with
        | Some _ => true
        | None => false
        end in
      let wanted := match state with
                    | Attached | Visible => true
                    | Detached | Hidden => false
                    end in
      if Bool.eqb present wanted then (inr tt, w)
      else (inl (DriverTimeoutError timeout), w)
  end.

Definition waitForURL (w : SpecWorld) (p : Page) (url : string) (timeout : number)
  : result unit * SpecWorld :=
  match p with
  | PageRef pid =>
      if String.eqb (page_url (page_of w pid)) url then (inr tt, w)
      else (inl (DriverTimeoutError timeout), w)
  end.

Definition done (w : SpecWorld) : result unit * SpecWorld := (inr tt, w).

(** Modelled from the spec: the calls of the Browser Driver
    ([BrowserManager], its pages and locators), whose code is missing from
    the sources.  Launch creates a live session with one blank page;
    [close] releases it; the resolver looks a reference token up in the
    table of the current generation and fails with [UnknownReferenceError]
    when it is not there; a snapshot replaces that table; [switchTo] and
    [closeTab] fail with [IndexOutOfRangeError] on an index that is not a
    valid Page index; waits end in a timeout error.  History, scripts,
    screenshots and raw input are not described by the spec and answer
    with a fixed value. *)
Definition spec_exec (R : Type) (c : Call R) (w : SpecWorld) : result R * SpecWorld :=
  match c in Call T return result T * SpecWorld with
  | NewBrowserManager =>
      (inr (ManagerRef (List.length (sessions w))),
       mkSpecWorld (sessions w ++ [absent]) (pages w) (locators w)
         (web w) (launch_faults w))
  | Launch b opts => launch w b opts
  | IsLaunched b => (inr (live (session_of w b)), w)
  | Close b => (inr tt, put_session w b absent)
  | GetPage b =>
      match active_page w b with
      | Some pid => (inr (PageRef pid), w)
      | None => (inl SessionAbsentError, w)
      end
  | GetLocator b selector => getLocator w b selector
  | GetSnapshot b opts => getSnapshot w b opts
  | NewTab b => newTab w b
  | SwitchTo b index => switchTo w b index
  | ListTabs b =>
      (inr (tab_infos w (session_of w b) 0 (tabs (session_of w b))), w)
  | CloseTab b index => closeTab w b index
  | InjectMouseEvent b _ => on_session w b
  | InjectKeyboardEvent b _ => on_session w b
  | PageGoto p url _ => goto w p url
  | PageTitle (PageRef pid) => (inr (page_title (page_of w pid)), w)
  | PageUrl (PageRef pid) => (inr (page_url (page_of w pid)), w)
  | PageGoBack _ => done w
  | PageGoForward _ => done w
  | PageReload _ => done w
  | PageEvaluate _ _ => (inr (JsOther 0), w)
  | PageWaitForSelector p selector state timeout =>
      waitForSelector w p selector state timeout
  | PageWaitForURL p url timeout => waitForURL w p url timeout
  | PageKeyboardPress _ _ => done w
  | PageMouseWheel _ _ _ => done w
  | PageScreenshot _ _ => (inr (BufferRef 0), w)
  | LocatorClick l _ _ => on_element w l (fun t n => (inr tt, click_node w t n))
  | LocatorHover l => on_element w l (fun _ _ => done w)
  | LocatorFill l _ => on_element w l (fun _ _ => done w)
  | LocatorPressSequentially l _ _ => on_element w l (fun _ _ => done w)
  | LocatorSelectOption l _ => on_element w l (fun _ _ => done w)
  | LocatorCheck l => on_element w l (fun _ _ => done w)
  | LocatorUncheck l => on_element w l (fun _ _ => done w)
  | LocatorPress l _ => on_element w l (fun _ _ => done w)
  | LocatorScrollIntoViewIfNeeded l => on_element w l (fun _ _ => done w)
  | LocatorScreenshot l => on_element w l (fun _ _ => (inr (BufferRef 0), w))
  | LocatorTextContent l => on_element w l (fun _ n => (inr (node_text n), w))
  | LocatorGetAttribute l name =>
      on_element w l (fun _ n => (inr (lookup name (node_attributes n)), w))
  | BufferToBase64 _ => (inr "iVBORw0KGgo=", w)
  | JsonStringify _ => (inr None, w)
  | SetTimeout _ => done w
  end.

(** Modelled from the spec: the Browser Driver as a [Driver]. *)
Definition driver : Driver := mkDriver SpecWorld spec_exec.

End SpecDriver.

(** ** Scenarios on the driver of the spec *)

Module Scenario.
Import SpecDriver.

Definition go_button : Node :=
  mkNode "#go" "button Go" true 1 (Some "Go") [("id", "go")] 0.

Definition bare_div : Node :=
  mkNode "#bare" "generic" false 1 None [("title", EmptyString)] 0.

Definition literal_div : Node :=
  mkNode "#literal" "generic" false 1 (Some "(empty)") [("title", "(null)")] 0.

Definition home : PageState :=
  mkPageState "https://example.test/" "Example" [go_button; bare_div; literal_div].

(** No [BrowserManager] has been created yet. *)
Definition fresh : SpecWorld := mkSpecWorld [] [] [] [("https://example.test/", home)] 0.

(** As [fresh], but the next launch fails. *)
Definition faulty : SpecWorld := mkSpecWorld [] [] [] [("https://example.test/", home)] 1.

(** One live session showing [home] in its only tab. *)
Definition browsing : SpecWorld :=
  mkSpecWorld [mkSession true (Some getBrowser_options) [0] 0 [] 0] [home] []
    [("https://example.test/", home)] 0.

(** [browsing] after one snapshot of the whole page: generation 1, which
    minted [e1], [e2] and [e3]. *)
Definition snapshotted : SpecWorld :=
  mkSpecWorld
    [mkSession true (Some getBrowser_options) [0] 0
       [("e1", (0, 0)); ("e2", (0, 1)); ("e3", (0, 2))] 1]
    [home] [] [("https://example.test/", home)] 0.

(** [faulty] after the failed launch of the first manager: the manager
    exists and holds no session. *)
Definition unlaunched : SpecWorld :=
  mkSpecWorld [absent] [] [] [("https://example.test/", home)] 0.

(** The module state when the singleton holds the first manager. *)
Definition attached : ModuleState :=
  mkModuleState (Some (ManagerRef 0)) (mkBrowserConfig true).

End Scenario.

(** ** More readers of a trace *)

(** A [close()] call: the manager, and whether the call returned. *)
Definition close_call (ev : Event) : option (BrowserManager * bool) :=
  match ev with
  | Ev c r =>
      match c with
      | Close b => Some (b, match r with inr _ => true | inl _ => false end)
      | _ => None
      end
  end.

(** An [isLaunched()] call that returned [false]. *)
Definition not_launched_report (ev : Event) : option BrowserManager :=
  match ev with
  | Ev c r =>
      match c in Call T return result T -> option BrowserManager with
      | IsLaunched b =>
          fun r => match r with inr false => Some b | _ => None end
      | _ => fun _ => None
      end r
  end.

(** The duration given to [setTimeout]. *)
Definition timeout_call (ev : Event) : option number :=
  match ev with
  | Ev c _ =>
      match c with
      | SetTimeout ms => Some ms
      | _ => None
      end
  end.

(** The deltas given to [page.mouse.wheel]. *)
Definition wheel_call (ev : Event) : option (number * number) :=
  match ev with
  | Ev c _ =>
      match c with
      | PageMouseWheel _ x y => Some (x, y)
      | _ => None
      end
  end.

(** The value given to [JSON.stringify]. *)
Definition stringify_call (ev : Event) : option JsValue :=
  match ev with
  | Ev c _ =>
      match c with
      | JsonStringify v => Some v
      | _ => None
      end
  end.

(** What a [page.evaluate] call returned. *)
Definition evaluate_read (ev : Event) : option JsValue :=
  match ev with
  | Ev c r =>
      match c in Call T return result T -> option JsValue with
      | PageEvaluate _ _ =>
          fun r => match r with inr v => Some v | inl _ => None end
      | _ => fun _ => None
      end r
  end.

(** What a [JSON.stringify] call returned. *)
Definition stringify_read (ev : Event) : option (option string) :=
  match ev with
  | Ev c r =>
      match c in Call T return result T -> option (option string) with
      | JsonStringify _ =>
          fun r => match r with inr v => Some v | inl _ => None end
      | _ => fun _ => None
      end r
  end.

(** A [newTab()] call that returned: the tab is open. *)
Definition tab_opened (ev : Event) : option NewTabResult :=
  match ev with
  | Ev c r =>
      match c in Call T return result T -> option NewTabResult with
      | NewTab _ => fun r => match r with inr v => Some v | inl _ => None end
      | _ => fun _ => None
      end r
  end.

(** A [closeTab] call. *)
Definition close_tab_call (ev : Event) : option (option number) :=
  match ev with
  | Ev c _ =>
      match c with
      | CloseTab _ index => Some index
      | _ => None
      end
  end.

(** A [goto] call: the URL and the [waitUntil] option. *)
Definition goto_call (ev : Event) : option (string * option string) :=
  match ev with
  | Ev c _ =>
      match c with
      | PageGoto _ url waitUntil => Some (url, waitUntil)
      | _ => None
      end
  end.

(** The error of a [goto] call that threw. *)
Definition goto_threw (ev : Event) : option Thrown :=
  match ev with
  | Ev c r =>
      match c in Call T return result T -> option Thrown with
      | PageGoto _ _ _ => fun r => match r with inl e => Some e | inr _ => None end
      | _ => fun _ => None
      end r
  end.

(** The calls made on a page or on its keyboard and mouse, as opposed to a
    locator. *)
Definition page_input_call (ev : Event) : bool :=
  match ev with
  | Ev c _ =>
      match c with
      | PageKeyboardPress _ _ | PageMouseWheel _ _ _ | PageScreenshot _ _ => true
      | _ => false
      end
  end.

(** The selector given to [getLocator]. *)
Definition locator_call (ev : Event) : option string :=
  match ev with
  | Ev c _ =>
      match c with
      | GetLocator _ selector => Some selector
      | _ => None
      end
  end.

(** Identity of manager objects. *)
Definition manager_eqb (a b : BrowserManager) : bool :=
  match a, b with
  | ManagerRef i, ManagerRef j => Nat.eqb i j
  end.

(** Every [launch] of [tr] is made on the manager that the call just before
    it constructed; [prev] is the manager constructed by the call before
    [tr], if that call was a construction that returned. *)
Fixpoint fresh_launches (prev : option BrowserManager) (tr : list Event) : bool :=
  match tr with
  | [] => true
  | ev :: rest =>
      match launch_call ev with
      | Some (b, _) =>
          match prev with
          | Some b' => manager_eqb b b'
          | None => false
          end
      | None => true
      end
      && fresh_launches
           match new_manager_call ev with
           | Some (inr b) => Some b
           | _ => None
           end
           rest
  end.

(** The manager the singleton refers to after the calls of [tr], when every
    manager constructed is stored in it: the last one a [new
    BrowserManager()] returned, or [init] when none was constructed. *)
Fixpoint last_constructed (tr : list Event) (init : option BrowserManager)
  : option BrowserManager :=
  match tr with
  | [] => init
  | ev :: rest =>
      last_constructed rest
        match new_manager_call ev with
        | Some (inr b) => Some b
        | _ => init
        end
  end.

(** ** A session of invocations

    The framework invokes the tools one at a time, each on the module state
    and the driver world the previous one left. *)

Record Invocation : Type := mkInvocation {
  inv_tool : Tool;
  inv_args : tool_args inv_tool
}.

Fixpoint run_session (d : Driver) (script : list Invocation)
    (s : ModuleState) (w : World d)
  : list (result Envelope) * ModuleState * World d * list Event :=
  match script with
  | [] => ([], s, w, [])
  | i :: rest =>
      let '(r, s1, w1, tr1) := invoke d (inv_tool i) (inv_args i) s w in
      let '(rs, s2, w2, tr2) := run_session d rest s1 w1 in
      (r :: rs, s2, w2, (tr1 ++ tr2)%list)
  end.

Module Scripts.

Definition get_url : Invocation :=
  mkInvocation (mkTool "browser_get_url" unit browserGetUrl) tt.

Definition close : Invocation :=
  mkInvocation (mkTool "browser_close" unit browserClose) tt.

Definition launch (args : LaunchArgs) : Invocation :=
  mkInvocation (mkTool "browser_launch" LaunchArgs browserLaunch) args.

Definition navigate (url : string) : Invocation :=
  mkInvocation (mkTool "browser_navigate" NavigateArgs browserNavigate)
    (mkNavigateArgs url).

(** A session that asks for the URL, closes, asks again, launches
    explicitly and navigates. *)
Definition recovery : list Invocation :=
  [get_url; close; get_url; launch (mkLaunchArgs (Some false) None);
   navigate "https://example.test/"].

End Scripts.

(** ** A driver that is down: every call throws. *)

Module Outage.

Definition unreachable : Thrown := ErrorObject "browser process is not reachable".

Definition down : Driver :=
  mkDriver unit (fun R _ w => (inl unreachable, w)).

(** A driver whose every call throws [null]. *)
Definition nulls : Driver :=
  mkDriver unit (fun R _ w => (inl Null, w)).

End Outage.

(** ** index.ts: the message loop of [runCrawler]

    The stream of messages comes from the SDK's [query]; the result message
    type, [JSON.stringify] and [printUsage] are taken as given.  The log is
    the list of the outputs of [console.log]. *)

Module Crawler.

Inductive ContentBlock : Type :=
| TextBlock (text : string)
| ToolUseBlock (name : string) (input : JsValue)
| OtherBlock.

Section Loop.

Variable SDKResultMessage : Type.
Variable subtype : SDKResultMessage -> string.
Variable result : SDKResultMessage -> string.
Variable printUsage : SDKResultMessage -> list string.
Variable stringify : JsValue -> option string.

(** A message of the stream, by its [type]; [content] is
    [message.message?.content]. *)
Inductive SDKMessage : Type :=
| AssistantMessage (content : option (list ContentBlock))
| ResultMessage (m : SDKResultMessage)
| OtherMessage.

(** What the loop prints for one content block. *)
Definition log_block (b : ContentBlock) : list string :=
  match b with
  | TextBlock text => ["Assistant: " ++ text]
  | ToolUseBlock name input =>
      ["Tool: " ++ name ++ " " ++ show_opt_string (stringify input)]
  | OtherBlock => []
  end.

(** The body of the [for await] loop: [resultMessage] and the log so far. *)
Definition on_message (st : option SDKResultMessage * list string) (m : SDKMessage)
  : option SDKResultMessage * list string :=
  match m with
  | AssistantMessage content =>
      (fst st,
       (snd st ++ match content with
                  | Some blocks => flat_map log_block blocks
                  | None => []
                  end)%list)
  | ResultMessage r =>
      (Some r,
       (snd st ++ if String.eqb (subtype r) "success"
                  then [(nl ++ "=== Result ===")%string; result r]
                  else [])%list)
  | OtherMessage => st
  end.

(** The loop over the whole stream, from [resultMessage = null]. *)
Definition consume (messages : list SDKMessage)
  : option SDKResultMessage * list string :=
  fold_left on_message messages (None, []).

(** [runCrawler] on a stream that has ended: everything it has printed,
    the usage summary last if a result message was seen, and the clean-up it
    then awaits. *)
Definition runCrawler (messages : list SDKMessage) : list string * M unit :=
  let (resultMessage, log) := consume messages in
  (match resultMessage with
   | Some r => (log ++ printUsage r)%list
   | None => log
   end,
   closeBrowser).

(** The result messages of a stream, in order. *)
Fixpoint results (messages : list SDKMessage) : list SDKResultMessage :=
  match messages with
  | [] => []
  | ResultMessage r :: rest => r :: results rest
  | _ :: rest => results rest
  end.

End Loop.

End Crawler.

(** * Properties *)

(** ** Examples: the values of JavaScript and the scenarios *)

Example or_number_cases :
  or_number None (Int 30000) = Int 30000 /\
  or_number (Some (Int 0)) (Int 30000) = Int 30000 /\
  or_number (Some NaN) (Int 30000) = Int 30000 /\
  or_number (Some (Int 5)) (Int 30000) = Int 5 /\
  or_number (Some (Other "0.5")) (Int 30000) = Other "0.5".
Proof. repeat split. Qed.

Example show_number_cases :
  show_number (Int 0) = "0" /\ show_number (Int 30000) = "30000" /\
  show_number (Int (-7)) = "-7" /\ show_number NaN = "NaN" /\
  show_number (Other "0.5") = "0.5" /\ show_number (Other "Infinity") = "Infinity".
Proof. repeat split. Qed.

(** Beyond 2^53 the digits are the fewest that give the number back, and
    from 1e21 on the form is the exponent form. *)
Example show_number_large :
  show_number (Int (2 ^ 53 + 1)) = "9007199254740992" /\
  show_number (Int (2 ^ 64)) = "18446744073709552000" /\
  show_number (Int 999999999999999999999) = "1e+21" /\
  show_number (Int (10 ^ 21)) = "1e+21" /\
  show_number (Int (- 10 ^ 21)) = "-1e+21" /\
  show_number (Int (2 ^ 70)) = "1.1805916207174113e+21" /\
  show_number (Int (10 ^ 23)) = "1e+23" /\
  show_number (Int 123456789012345678901234567890) = "1.2345678901234568e+29" /\
  show_number (Int (2 ^ 1024 - 2 ^ 971)) = "1.7976931348623157e+308" /\
  show_number (Int (2 ^ 1024)) = "Infinity".
Proof. vm_compute. repeat split. Qed.

Example read_message_cases :
  read_message (ErrorObject "boom") = inr "boom" /\
  read_message NoMessage = inr "undefined" /\
  read_message Null = inl (TypeError_reading "null") /\
  read_message Undefined = inl (TypeError_reading "undefined").
Proof. repeat split. Qed.

(** What a [catch] clause makes of an error with a message is the error
    envelope; of a value without one, the envelope with the text
    "undefined"; of [null], a [TypeError] that leaves the handler. *)
Lemma caught_error_object (prefix message : string) :
  caught prefix (ErrorObject message) =
  inr (error_envelope (prefix ++ ": " ++ message)).
Proof. reflexivity. Qed.

Example caught_cases :
  caught "Click failed" NoMessage = inr (error_envelope "Click failed: undefined") /\
  caught "Click failed" Null = inl (TypeError_reading "null") /\
  caught "Click failed" Undefined = inl (TypeError_reading "undefined") /\
  caught "Click failed" (Unreadable NoMessage) = inl NoMessage.
Proof. repeat split. Qed.

Example parse_cli_cases :
  headless (browserConfig (parse_cli [] initial_state)) = true /\
  headless (browserConfig (parse_cli ["--show-browser"] initial_state)) = false /\
  headless (browserConfig (parse_cli ["--verbose"; "--no-headless"] initial_state)) = false.
Proof. repeat split. Qed.

(** [browser_navigate] as the first command, on [fresh]. *)
Example browsing_is_reached :
  run SpecDriver.driver
    (browserNavigate (mkNavigateArgs "https://example.test/") initial_state)
    Scenario.fresh =
  (inr (text_envelope ("Navigated to https://example.test/" ++ nl ++ "Title: Example")),
   Scenario.attached, Scenario.browsing,
   [Ev NewBrowserManager (inr (ManagerRef 0));
    Ev (Launch (ManagerRef 0) getBrowser_options) (inr tt);
    Ev (GetPage (ManagerRef 0)) (inr (PageRef 0));
    Ev (PageGoto (PageRef 0) "https://example.test/" (Some "domcontentloaded")) (inr tt);
    Ev (PageTitle (PageRef 0)) (inr "Example")]).
Proof. reflexivity. Qed.

(** A snapshot of the whole page, on [browsing]. *)
Example snapshotted_is_reached :
  run SpecDriver.driver (browserSnapshot (mkSnapshotArgs None None None) Scenario.attached)
    Scenario.browsing =
  (inr (text_envelope
          ("Accessibility tree:" ++ nl ++
           "button Go [ref=e1]" ++ nl ++ "generic [ref=e2]" ++ nl ++ "generic [ref=e3]" ++
           nl ++ nl ++
           "Use element refs (e.g., 'e1', 'e2') with browser_click, browser_fill, etc.")),
   Scenario.attached, Scenario.snapshotted,
   [Ev (GetSnapshot (ManagerRef 0) (mkSnapshotOptions None None None))
      (inr (mkSnapshot
              ("button Go [ref=e1]" ++ nl ++ "generic [ref=e2]" ++ nl ++
               "generic [ref=e3]")))]).
Proof. reflexivity. Qed.

(** The tabs of [browsing] after [browser_new_tab], as [browser_list_tabs]
    shows them. *)
Example tabs_after_new_tab :
  let '(_, s1, w1, _) :=
    run SpecDriver.driver (browserNewTab (mkNewTabArgs None) Scenario.attached)
      Scenario.browsing in
  fst (fst (fst (run SpecDriver.driver (browserListTabs tt s1) w1))) =
  inr (text_envelope
         ("  [0] Example" ++ nl ++ "     https://example.test/" ++ nl ++
          active_mark ++ "[1] " ++ nl ++ "     about:blank")).
Proof. reflexivity. Qed.

(** ** Running programs *)

Lemma run_pbind (d : Driver) {A B : Type} (p : Prog A) (f : A -> Prog B) (w : World d) :
  run d (pbind p f) w =
  let '(a, w1, t1) := run d p w in
  let '(b, w2, t2) := run d (f a) w1 in
  (b, w2, (t1 ++ t2)%list).
Proof.
  revert w.
  induction p as [a | R c k IH]; intros w; simpl.
  - destruct (run d (f a) w) as [[b w2] t2]. reflexivity.
  - destruct (exec d c w) as [r w1].
    rewrite IH.
    destruct (run d (k r) w1) as [[a w2] t1].
    destruct (run d (f a) w2) as [[b w3] t2].
    reflexivity.
Qed.

(** [getBrowser] on a singleton that is set: the same manager, no call. *)
Lemma getBrowser_reuses (d : Driver) (s : ModuleState) (w : World d) (b : BrowserManager) :
  browser s = Some b ->
  run d (getBrowser s) w = (inr b, s, w, []).
Proof.
  intros Hb. cbv [getBrowser bind get_browser_var ret]. simpl.
  rewrite Hb. reflexivity.
Qed.

(** [getBrowser] on an empty singleton: construct, assign, launch. *)
Lemma getBrowser_creates (d : Driver) (s : ModuleState) (w : World d) :
  browser s = None ->
  run d (getBrowser s) w =
  match exec d NewBrowserManager w with
  | (inl e, w1) => (inl e, s, w1, [Ev NewBrowserManager (inl e)])
  | (inr b, w1) =>
      match exec d (Launch b getBrowser_options) w1 with
      | (inl e, w2) =>
          (inl e, set_browser (Some b) s, w2,
           [Ev NewBrowserManager (inr b); Ev (Launch b getBrowser_options) (inl e)])
      | (inr u, w2) =>
          (inr b, set_browser (Some b) s, w2,
           [Ev NewBrowserManager (inr b); Ev (Launch b getBrowser_options) (inr u)])
      end
  end.
Proof.
  intros Hb. cbv [getBrowser bind get_browser_var ret call assign_browser]. simpl.
  rewrite Hb. simpl.
  destruct (exec d NewBrowserManager w) as [[e | b] w1]; simpl; [reflexivity | ].
  destruct (exec d (Launch b getBrowser_options) w1) as [[e | u] w2]; reflexivity.
Qed.

(** A handler that starts with [getBrowser]: the session is obtained first,
    and the rest of the body runs only if that returned. *)
Lemma run_with_session (d : Driver) (k : BrowserManager -> M Envelope)
    (h : Thrown -> M Envelope) (s : ModuleState) (w : World d) :
  run d (try_catch (bind getBrowser k) h s) w =
  let '(rb, s1, w1, tr1) := run d (getBrowser s) w in
  let '(x, w2, tr2) :=
    match rb with
    | inl e => run d (h e s1) w1
    | inr b => run d (try_catch (k b) h s1) w1
    end in
  (x, w2, (tr1 ++ tr2)%list).
Proof.
  cbv [try_catch bind]. rewrite !run_pbind.
  destruct (run d (getBrowser s) w) as [[[rb s1] w1] tr1].
  destruct rb as [e | b]; simpl.
  - destruct (run d (h e s1) w1) as [[x w2] tr2].
    rewrite app_nil_r. reflexivity.
  - rewrite run_pbind. unfold result.
    destruct (@run d ((Thrown + Envelope) * ModuleState) (k b s1) w1)
      as [[[r s2] w2] tr2].
    destruct r as [e | env]; simpl.
    + destruct (@run d ((Thrown + Envelope) * ModuleState) (h e s2) w2)
        as [[x w3] tr3].
      rewrite app_assoc. reflexivity.
    + rewrite app_assoc. reflexivity.
Qed.

(** The trace of a handler body ends in a throw exactly when it is some
    returned calls followed by one that threw. *)
Lemma ending_LastThrew (tr : list Event) (e : Thrown) :
  ending tr = LastThrew e <->
  exists tr0 ev, tr = (tr0 ++ [ev])%list /\ forallb returned tr0 = true /\ thrown ev = Some e.
Proof.
  split.
  - induction tr as [ | ev rest IH]; simpl; [discriminate | ].
    destruct ev as [R c [e0 | v]]; simpl.
    + destruct rest; [ | discriminate].
      intros H. injection H as <-.
      exists [], (Ev c (inl e0)). repeat split.
    + intros H. destruct (IH H) as (tr0 & ev & -> & Hall & Hth).
      exists (Ev c (inr v) :: tr0), ev. repeat split; assumption.
  - intros (tr0 & ev & -> & Hall & Hth).
    induction tr0 as [ | ev0 tr0 IH]; simpl.
    + rewrite Hth. reflexivity.
    + simpl in Hall. apply andb_true_iff in Hall as [H0 Hall].
      destruct ev0 as [R c [e0 | v]]; simpl in *; [discriminate | ].
      apply IH. assumption.
Qed.

Lemma ending_AllReturned (tr : list Event) :
  ending tr = AllReturned <-> forallb returned tr = true.
Proof.
  induction tr as [ | ev rest IH]; simpl; [tauto | ].
  destruct ev as [R c [e0 | v]]; simpl.
  - destruct rest; split; discriminate.
  - exact IH.
Qed.

(** ** Proof automation for handler runs *)

Ltac unfold_handlers :=
  cbv [invoke tool_handler tool_name tool_args
       browserLaunch browserNavigate browserBack browserForward browserReload
       browserClick browserHover browserFill browserType browserSelect
       browserCheck browserUncheck browserPress browserScroll browserScreenshot
       browserSnapshot browserGetText browserGetAttribute browserGetUrl
       browserGetTitle browserEvaluate browserWaitForSelector browserWaitForUrl
       browserWait browserNewTab browserSwitchTab browserListTabs browserCloseTab
       browserMouseEvent browserKeyboardEvent browserClose closeBrowser
       getBrowser try_catch bind call ret get_browser_var assign_browser
       message_of caught].

(** Follow a run through every answer the driver can give. *)
Ltac follow_run :=
  repeat (cbn;
    match goal with
    | |- context [exec ?d ?c ?w] => destruct (exec d c w) as [[? | ?] ?] eqn:?
    | |- context [match browser ?s with _ => _ end] => destruct (browser s) eqn:?
    | |- context [if ?b then _ else _] => destruct b eqn:?
    | |- context [match ?x with JsString _ => _ | JsOther _ => _ end] => destruct x
    | |- context [read_message ?e] => destruct (read_message e) as [? | ?] eqn:?
    end).

(** Use what is known of the reads of messages. *)
Ltac settle_reads :=
  repeat match goal with
         | H : read_message _ = _ |- _ => rewrite H
         end.

#[local] Arguments String.append : simpl never.
#[local] Arguments failure_prefix : simpl never.

(** ** C1: one envelope per invocation *)




(** ** Envelopes and readable throws

    Where a statement below leaves the outcome [out] of a run open, it says
    [envelope_if_readable tr out]: the run ended in an envelope, unless a
    call of its trace [tr] threw a value whose message cannot be read. *)

Ltac settle_envelope :=
  unfold envelope_if_readable; cbn; settle_reads; cbn;
  first [ intros H; discriminate H | intros _; eexists; reflexivity ].

Ltac in_server :=
  cbv [browserToolsServer In]; repeat (first [left; reflexivity | right]).

(** Every tool of the server ends in an envelope unless one of its calls
    threw a value whose message cannot be read. *)
Lemma envelope_of_run (d : Driver) :
  forall t : Tool, In t browserToolsServer ->
  forall (args : tool_args t) (s s' : ModuleState) (w w' : World d)
         (out : result Envelope) (tr : list Event),
  invoke d t args s w = (out, s', w', tr) -> envelope_if_readable tr out.
Proof.
  intros t Ht.
  cbv [browserToolsServer] in Ht.
  repeat (destruct Ht as [<- | Ht]); [ .. | destruct Ht].
  all: intros args s s' w w' out tr; unfold_handlers; follow_run.
  all: intros Hrun; injection Hrun as <- <- <- <-.
  all: settle_envelope.
Qed.

(** ** Commands that obtain the session through [getBrowser] *)

Ltac each_session_tool Ht Hs :=
  cbv [browserToolsServer] in Ht;
  repeat (destruct Ht as [<- | Ht]); [ .. | destruct Ht];
  try (discriminate Hs); clear Hs.

(** With the singleton set to [b], a session-requiring command leaves the
    module state as it is, constructs no manager, launches nothing, and
    makes its manager calls on [b]. *)
Lemma session_tool_on_existing (d : Driver) :
  forall t : Tool, In t browserToolsServer -> session_requiring (tool_name t) = true ->
  forall (args : tool_args t) (s : ModuleState) (w : World d) (b : BrowserManager),
  browser s = Some b ->
  exists out w' tr,
    invoke d t args s w = (out, s, w', tr) /\
    envelope_if_readable tr out /\
    pick new_manager_call tr = [] /\
    pick launch_call tr = [] /\
    forallb (fun b' => match b, b' with ManagerRef i, ManagerRef j => Nat.eqb i j end)
      (pick manager_of tr) = true.
Proof.
  intros t Ht Hs. each_session_tool Ht Hs.
  all: intros args s w [i] Hb; unfold_handlers; cbn; rewrite Hb; follow_run.
  all: do 3 eexists; (split; [reflexivity | split; [settle_envelope | ]]); cbn.
  all: rewrite ?Nat.eqb_refl; repeat split; reflexivity.
Qed.

(** With the singleton empty, a session-requiring command first constructs a
    manager, stores it in the singleton and launches it with the options of
    [getBrowser]; the rest of the body runs only when both returned, and
    neither constructs nor launches again. *)
Lemma session_tool_on_absent (d : Driver) :
  forall t : Tool, In t browserToolsServer -> session_requiring (tool_name t) = true ->
  forall (args : tool_args t) (s : ModuleState) (w : World d),
  browser s = None ->
  exists out s' w' tr,
    invoke d t args s w = (out, s', w', tr) /\
    match exec d NewBrowserManager w with
    | (inl e, w1) =>
        tr = [Ev NewBrowserManager (inl e)] /\ s' = s /\ w' = w1 /\
        out = caught (failure_prefix (tool_name t)) e
    | (inr b, w1) =>
        s' = set_browser (Some b) s /\
        match exec d (Launch b getBrowser_options) w1 with
        | (inl e, w2) =>
            tr = [Ev NewBrowserManager (inr b);
                  Ev (Launch b getBrowser_options) (inl e)] /\
            w' = w2 /\
            out = caught (failure_prefix (tool_name t)) e
        | (inr u, w2) =>
            exists rest,
              tr = Ev NewBrowserManager (inr b)
                   :: Ev (Launch b getBrowser_options) (inr u) :: rest /\
              pick new_manager_call rest = [] /\
              pick launch_call rest = []
        end
    end.
Proof.
  intros t Ht Hs. each_session_tool Ht Hs.
  all: intros args s w Hb; unfold_handlers; cbn; rewrite Hb; follow_run.
  all: do 4 eexists; (split; [reflexivity | ]); cbn.
  all: repeat split; try reflexivity.
  all: eexists; repeat split; reflexivity.
Qed.

(** ** C2: the headless toggle *)

(** C2 (the code does not do what the claim says).  When the start-up
    arguments contain [--no-headless] or [--show-browser], [index.ts] sets the
    toggle [browserConfig.headless] to [false] and no session exists yet; the
    first session-requiring command then creates the session lazily, and the
    one launch it performs is given the fixed options of [getBrowser], whose
    [headless] is [true]: the toggle is never read. *)
Theorem lazy_launch_ignores_headless_toggle :
  forall (argv : list string) (d : Driver) (w : World d) (t : Tool) (args : tool_args t),
  In t browserToolsServer -> session_requiring (tool_name t) = true ->
  includes argv "--no-headless" || includes argv "--show-browser" = true ->
  let s := parse_cli argv initial_state in
  headless (browserConfig s) = false /\
  browser s = None /\
  launch_headless getBrowser_options = true /\
  exists out s' w' tr,
    invoke d t args s w = (out, s', w', tr) /\
    envelope_if_readable tr out /\
    match exec d NewBrowserManager w with
    | (inl _, _) => pick launch_call tr = []
    | (inr b, _) => pick launch_call tr = [(b, getBrowser_options)]
    end.
Proof.
  intros argv d w t args Ht Hs Hflag s.
  assert (Hnone : browser s = None).
  { subst s. unfold parse_cli. rewrite Hflag. reflexivity. }
  repeat split; [ | exact Hnone | ].
  - subst s. unfold parse_cli. rewrite Hflag. reflexivity.
  - destruct (session_tool_on_absent d t Ht Hs args s w Hnone)
      as (out & s' & w' & tr & Hrun & Htr).
    exists out, s', w', tr.
    split; [exact Hrun | split; [exact (envelope_of_run d t Ht _ _ _ _ _ _ _ Hrun) | ]].
    destruct (exec d NewBrowserManager w) as [[e | b] w1].
    + destruct Htr as (-> & _). reflexivity.
    + destruct Htr as (_ & Htr).
      destruct (exec d (Launch b getBrowser_options) w1) as [[e | u] w2].
      * destruct Htr as (-> & _). reflexivity.
      * destruct Htr as (rest & -> & _ & Hl). cbn. rewrite Hl. reflexivity.
Qed.

Lemma lazy_launch_ignores_headless_toggle_witness :
  let s := parse_cli ["--no-headless"] initial_state in
  headless (browserConfig s) = false /\
  browser s = None /\
  launch_headless getBrowser_options = true /\
  exists out s' w' tr,
    invoke SpecDriver.driver (mkTool "browser_get_url" unit browserGetUrl) tt s
      Scenario.fresh = (out, s', w', tr) /\
    envelope_if_readable tr out /\
    pick launch_call tr = [(ManagerRef 0, getBrowser_options)].
Proof.
  apply (lazy_launch_ignores_headless_toggle ["--no-headless"] SpecDriver.driver
           Scenario.fresh (mkTool "browser_get_url" unit browserGetUrl) tt).
  - simpl. do 18 right. left. reflexivity.
  - reflexivity.
  - reflexivity.
Defined.

(** The session launched at the failing input of C2, as the driver of the
    spec records it: [--no-headless] was given, the browser runs headless. *)
Example no_headless_flag_launches_headless :
  let s := parse_cli ["--no-headless"] initial_state in
  let '(out, s', w', _) := run SpecDriver.driver (browserGetUrl tt s) Scenario.fresh in
  headless (browserConfig s') = false /\
  out = inr (text_envelope "about:blank") /\
  option_map launch_headless
    (SpecDriver.config (SpecDriver.session_of w' (ManagerRef 0))) = Some true.
Proof. cbn. repeat split. Qed.

(** ** C3: lazy creation and reuse of the session *)

(** C3.  Against every driver:
    - with no session, a session-requiring command first constructs a
      manager and launches it with [headless: true]; the rest of the command
      comes after that launch, and the singleton holds the new manager;
    - with a session in the singleton, [getBrowser] returns that same manager
      without any driver call, and a session-requiring command neither
      constructs nor launches anything and leaves the singleton as it is;
    - [browser_close] on a session whose [close] returns resets the
      singleton to [null], and the next [browser_get_url] constructs and
      launches a new manager and answers with its URL whenever the driver
      serves these calls. *)
Theorem session_is_created_lazily_and_reused :
  forall d : Driver,
  (forall t : Tool, In t browserToolsServer -> session_requiring (tool_name t) = true ->
   forall (args : tool_args t) (s : ModuleState) (w : World d),
   browser s = None ->
   exists out s' w' tr,
     invoke d t args s w = (out, s', w', tr) /\
     envelope_if_readable tr out /\
     match exec d NewBrowserManager w with
     | (inl e, _) => tr = [Ev NewBrowserManager (inl e)]
     | (inr b, w1) =>
         launch_headless getBrowser_options = true /\
         browser s' = Some b /\
         let (r, _) := exec d (Launch b getBrowser_options) w1 in
         exists rest,
           tr = Ev NewBrowserManager (inr b)
                :: Ev (Launch b getBrowser_options) r :: rest /\
           pick new_manager_call rest = [] /\
           pick launch_call rest = [] /\
           match r with
           | inl _ => rest = []
           | inr _ => True
           end
     end) /\
  (forall (s : ModuleState) (w : World d) (b : BrowserManager),
   browser s = Some b ->
   run d (getBrowser s) w = (inr b, s, w, [])) /\
  (forall t : Tool, In t browserToolsServer -> session_requiring (tool_name t) = true ->
   forall (args : tool_args t) (s : ModuleState) (w : World d) (b : BrowserManager),
   browser s = Some b ->
   exists out w' tr,
     invoke d t args s w = (out, s, w', tr) /\
     envelope_if_readable tr out /\
     pick new_manager_call tr = [] /\
     pick launch_call tr = []) /\
  (forall (s : ModuleState) (w w1 : World d) (b : BrowserManager),
   browser s = Some b ->
   exec d (Close b) w = (inr tt, w1) ->
   run d (browserClose tt s) w =
     (inr (text_envelope "Browser closed"), set_browser None s, w1,
      [Ev (Close b) (inr tt)]) /\
   browser (set_browser None s) = None /\
   forall (b' : BrowserManager) (w2 w3 w4 w5 : World d) (p : Page) (url : string),
   exec d NewBrowserManager w1 = (inr b', w2) ->
   exec d (Launch b' getBrowser_options) w2 = (inr tt, w3) ->
   exec d (GetPage b') w3 = (inr p, w4) ->
   exec d (PageUrl p) w4 = (inr url, w5) ->
   run d (browserGetUrl tt (set_browser None s)) w1 =
     (inr (text_envelope url), set_browser (Some b') s, w5,
      [Ev NewBrowserManager (inr b');
       Ev (Launch b' getBrowser_options) (inr tt);
       Ev (GetPage b') (inr p);
       Ev (PageUrl p) (inr url)])).
Proof.
  intros d. split; [ | split; [ | split]].
  - intros t Ht Hs args s w Hb.
    destruct (session_tool_on_absent d t Ht Hs args s w Hb)
      as (out & s' & w' & tr & Hrun & Htr).
    exists out, s', w', tr.
    split; [exact Hrun | split; [exact (envelope_of_run d t Ht _ _ _ _ _ _ _ Hrun) | ]].
    destruct (exec d NewBrowserManager w) as [[e | b] w1].
    + apply Htr.
    + destruct Htr as (-> & Htr).
      split; [reflexivity | split; [reflexivity | ]].
      destruct (exec d (Launch b getBrowser_options) w1) as [[e | u] w2].
      * destruct Htr as (-> & _). exists []. repeat split.
      * destruct Htr as (rest & -> & Hn & Hl). exists rest. repeat split; assumption.
  - intros s w b Hb. apply getBrowser_reuses. exact Hb.
  - intros t Ht Hs args s w b Hb.
    destruct (session_tool_on_existing d t Ht Hs args s w b Hb)
      as (out & w' & tr & Hrun & Henv & Hn & Hl & _).
    exists out, w', tr. repeat split; assumption.
  - intros s w w1 b Hb Hclose.
    split; [ | split; [reflexivity | ]].
    + unfold_handlers. cbn. rewrite Hb. cbn. rewrite Hclose. reflexivity.
    + intros b' w2 w3 w4 w5 p url Hnew Hlaunch Hpage Hurl.
      unfold_handlers. cbn. rewrite Hnew. cbn. rewrite Hlaunch. cbn.
      rewrite Hpage. cbn. rewrite Hurl. reflexivity.
Qed.

Lemma session_is_created_lazily_and_reused_witness :
  (exists out s' w' tr,
     invoke SpecDriver.driver (mkTool "browser_get_url" unit browserGetUrl) tt
       initial_state Scenario.fresh = (out, s', w', tr) /\
     envelope_if_readable tr out /\
     launch_headless getBrowser_options = true /\
     browser s' = Some (ManagerRef 0) /\
     exists rest,
       tr = Ev NewBrowserManager (inr (ManagerRef 0))
            :: Ev (Launch (ManagerRef 0) getBrowser_options) (inr tt) :: rest /\
       pick new_manager_call rest = [] /\
       pick launch_call rest = [] /\ True) /\
  run SpecDriver.driver (getBrowser Scenario.attached) Scenario.browsing =
    (inr (ManagerRef 0), Scenario.attached, Scenario.browsing, []) /\
  (exists out w' tr,
     invoke SpecDriver.driver (mkTool "browser_get_url" unit browserGetUrl) tt
       Scenario.attached Scenario.browsing = (out, Scenario.attached, w', tr) /\
     envelope_if_readable tr out /\
     pick new_manager_call tr = [] /\
     pick launch_call tr = []) /\
  (exists w1 w5 : SpecDriver.SpecWorld,
     run SpecDriver.driver (browserClose tt Scenario.attached) Scenario.browsing =
       (inr (text_envelope "Browser closed"), set_browser None Scenario.attached, w1,
        [Ev (Close (ManagerRef 0)) (inr tt)]) /\
     run SpecDriver.driver (browserGetUrl tt (set_browser None Scenario.attached)) w1 =
       (inr (text_envelope "about:blank"),
        set_browser (Some (ManagerRef 1)) Scenario.attached, w5,
        [Ev NewBrowserManager (inr (ManagerRef 1));
         Ev (Launch (ManagerRef 1) getBrowser_options) (inr tt);
         Ev (GetPage (ManagerRef 1)) (inr (PageRef 1));
         Ev (PageUrl (PageRef 1)) (inr "about:blank")])).
Proof.
  destruct (session_is_created_lazily_and_reused SpecDriver.driver)
    as (Habsent & Hsame & Hexisting & Hclose).
  split; [ | split; [ | split]].
  - apply (Habsent (mkTool "browser_get_url" unit browserGetUrl)).
    + simpl. do 18 right. left. reflexivity.
    + reflexivity.
    + reflexivity.
  - apply Hsame. reflexivity.
  - apply (Hexisting (mkTool "browser_get_url" unit browserGetUrl)) with (b := ManagerRef 0).
    + simpl. do 18 right. left. reflexivity.
    + reflexivity.
    + reflexivity.
  - do 2 eexists.
    edestruct (Hclose Scenario.attached Scenario.browsing) as (Hc & _ & Hnext).
    + reflexivity.
    + reflexivity.
    + split; [exact Hc | ].
      eapply Hnext; reflexivity.
Defined.

(** ** C4: explicit launch *)

(** C4.  [browser_launch], against every driver:
    - when the singleton holds a manager whose [isLaunched()] returns
      [true], the answer is the success envelope "Browser already running",
      the singleton is unchanged and the only driver call is that
      [isLaunched()]: nothing is constructed or launched;
    - when the singleton is empty, or holds a manager whose [isLaunched()]
      returns [false], a new manager is constructed, stored in the singleton
      and launched with the [headless] argument (or [true] when omitted) and
      the [viewport] argument; the answer is "Browser launched successfully"
      when the launch returns and, when it throws, what the [catch] clause
      makes of the throw: the "Launch failed" error envelope whenever the
      message of what was thrown can be read. *)
Theorem launch_only_without_live_session :
  forall (d : Driver) (args : LaunchArgs) (s : ModuleState) (w : World d),
  (forall (b : BrowserManager) (w1 : World d),
   browser s = Some b ->
   exec d (IsLaunched b) w = (inr true, w1) ->
   run d (browserLaunch args s) w =
     (inr (text_envelope "Browser already running"), s, w1,
      [Ev (IsLaunched b) (inr true)])) /\
  (forall (w1 : World d) (pre : list Event),
   (browser s = None /\ w1 = w /\ pre = []) \/
   (exists b, browser s = Some b /\
              exec d (IsLaunched b) w = (inr false, w1) /\
              pre = [Ev (IsLaunched b) (inr false)]) ->
   let opts := mkLaunchOptions None None (nullish (la_headless args) true)
                 (la_viewport args) in
   exists out s' w' rest,
     run d (browserLaunch args s) w = (out, s', w', (pre ++ rest)%list) /\
     match exec d NewBrowserManager w1 with
     | (inl e, w2) =>
         rest = [Ev NewBrowserManager (inl e)] /\ s' = s /\ w' = w2 /\
         out = caught "Launch failed" e
     | (inr b', w2) =>
         s' = set_browser (Some b') s /\
         let (r, w3) := exec d (Launch b' opts) w2 in
         rest = [Ev NewBrowserManager (inr b'); Ev (Launch b' opts) r] /\
         w' = w3 /\
         out = match r with
               | inl e => caught "Launch failed" e
               | inr _ => inr (text_envelope "Browser launched successfully")
               end
     end).
Proof.
  intros d args s w. split.
  - intros b w1 Hb Hlive.
    unfold_handlers. cbn. rewrite Hb. cbn. rewrite Hlive. reflexivity.
  - intros w1 pre [(Hb & -> & ->) | (b & Hb & Hlive & ->)] opts; subst opts.
    all: unfold_handlers; cbn; rewrite Hb; cbn; rewrite ?Hlive; follow_run.
    all: do 4 eexists; (split; [reflexivity | ]); repeat split.
Qed.

Lemma launch_only_without_live_session_witness :
  run SpecDriver.driver (browserLaunch (mkLaunchArgs (Some false) None) Scenario.attached)
    Scenario.browsing =
    (inr (text_envelope "Browser already running"), Scenario.attached,
     Scenario.browsing, [Ev (IsLaunched (ManagerRef 0)) (inr true)]) /\
  (let opts := mkLaunchOptions None None false (Some (mkViewport (Int 800) (Int 600))) in
   exists out s' w' rest,
     run SpecDriver.driver
       (browserLaunch (mkLaunchArgs (Some false) (Some (mkViewport (Int 800) (Int 600))))
          initial_state) Scenario.fresh = (out, s', w', rest) /\
     s' = set_browser (Some (ManagerRef 0)) initial_state /\
     rest = [Ev NewBrowserManager (inr (ManagerRef 0));
             Ev (Launch (ManagerRef 0) opts) (inr tt)] /\
     w' = snd (SpecDriver.launch
                 (snd (exec SpecDriver.driver NewBrowserManager Scenario.fresh))
                 (ManagerRef 0) opts) /\
     out = inr (text_envelope "Browser launched successfully")).
Proof.
  split.
  - apply (proj1 (launch_only_without_live_session SpecDriver.driver
                    (mkLaunchArgs (Some false) None) Scenario.attached
                    Scenario.browsing));
      reflexivity.
  - apply (proj2 (launch_only_without_live_session SpecDriver.driver
                    (mkLaunchArgs (Some false) (Some (mkViewport (Int 800) (Int 600))))
                    initial_state Scenario.fresh) Scenario.fresh []).
    left. repeat split.
Defined.

(** ** The waiting commands *)

(** One run of [browser_wait_for_selector]: at most one [waitForSelector]
    call, whose state and timeout are the arguments with their defaults
    applied; a throw of that call is what the [catch] clause reports. *)
Lemma wait_for_selector_run (d : Driver) (s : ModuleState) (w : World d)
    (selector : string) (state : option WaitState) (timeout : option number) :
  exists out s' w' tr,
    run d (browserWaitForSelector (mkWaitForSelectorArgs selector state timeout) s) w
      = (out, s', w', tr) /\
    (pick wait_selector_call tr =
       [(selector, or_state state Visible, or_number timeout (Int 30000))]
     \/ (pick wait_selector_call tr = [] /\ exists e, ending tr = LastThrew e)) /\
    (forall e, pick wait_threw tr = [e] ->
       out = caught "Wait failed" e /\
       browser s' <> None).
Proof.
  unfold_handlers; follow_run.
  all: do 4 eexists; (split; [reflexivity | ]); cbn.
  all: split; [ solve [ left; reflexivity
                      | right; split; [reflexivity | eexists; reflexivity] ] | ].
  all: intros err Herr; try discriminate Herr.
  all: injection Herr as <-; settle_reads; split; [reflexivity | ].
  all: cbn; congruence.
Qed.

(** One run of [browser_wait_for_url], likewise. *)
Lemma wait_for_url_run (d : Driver) (s : ModuleState) (w : World d)
    (url : string) (timeout : option number) :
  exists out s' w' tr,
    run d (browserWaitForUrl (mkWaitForUrlArgs url timeout) s) w
      = (out, s', w', tr) /\
    (pick wait_url_call tr = [(url, or_number timeout (Int 30000))]
     \/ (pick wait_url_call tr = [] /\ exists e, ending tr = LastThrew e)) /\
    (forall e, pick wait_threw tr = [e] ->
       out = caught "Wait for URL failed" e /\
       browser s' <> None).
Proof.
  unfold_handlers; follow_run.
  all: do 4 eexists; (split; [reflexivity | ]); cbn.
  all: split; [ solve [ left; reflexivity
                      | right; split; [reflexivity | eexists; reflexivity] ] | ].
  all: intros err Herr; try discriminate Herr.
  all: injection Herr as <-; settle_reads; split; [reflexivity | ].
  all: cbn; congruence.
Qed.

(** ** C5: waiting commands *)

(** C5.  Against every driver and for every timeout argument, given or
    omitted, [browser_wait_for_selector] makes at most one [waitForSelector]
    call (none only when the session or the page could not be obtained) and
    [browser_wait_for_url] at most one [waitForURL] call.  With the timeout
    omitted the call carries timeout 30000, and [browser_wait_for_selector]
    passes the given state, or [visible] when the state is omitted too; a
    timeout that is given and truthy is passed as it is.  When the wait call
    throws, the command ends with what its [catch] clause makes of the
    throw and the singleton still holds the session; an expired wait is
    thrown by the driver as an error with a message, and the command then
    returns the error envelope "Wait failed: ..." (respectively "Wait for
    URL failed: ...") with that message: it neither hangs nor throws. *)
Theorem waits_default_to_30000_and_report_timeouts :
  forall (d : Driver) (s : ModuleState) (w : World d) (timeout : option number),
  (forall (selector : string) (state : option WaitState),
   exists out s' w' tr,
     run d (browserWaitForSelector (mkWaitForSelectorArgs selector state timeout) s) w
       = (out, s', w', tr) /\
     envelope_if_readable tr out /\
     (pick wait_selector_call tr =
        [(selector, match state with Some v => v | None => Visible end,
          match timeout with
          | None => Int 30000
          | Some given => or_number (Some given) (Int 30000)
          end)]
      \/ (pick wait_selector_call tr = [] /\ exists e, ending tr = LastThrew e)) /\
     (forall e, pick wait_threw tr = [e] ->
        out = caught "Wait failed" e /\ browser s' <> None) /\
     (forall message, pick wait_threw tr = [ErrorObject message] ->
        out = inr (error_envelope ("Wait failed: " ++ message)) /\
        browser s' <> None)) /\
  (forall url : string,
   exists out s' w' tr,
     run d (browserWaitForUrl (mkWaitForUrlArgs url timeout) s) w
       = (out, s', w', tr) /\
     envelope_if_readable tr out /\
     (pick wait_url_call tr =
        [(url, match timeout with
               | None => Int 30000
               | Some given => or_number (Some given) (Int 30000)
               end)]
      \/ (pick wait_url_call tr = [] /\ exists e, ending tr = LastThrew e)) /\
     (forall e, pick wait_threw tr = [e] ->
        out = caught "Wait for URL failed" e /\ browser s' <> None) /\
     (forall message, pick wait_threw tr = [ErrorObject message] ->
        out = inr (error_envelope ("Wait for URL failed: " ++ message)) /\
        browser s' <> None)).
Proof.
  intros d s w timeout. split.
  - intros selector state.
    destruct (wait_for_selector_run d s w selector state timeout)
      as (out & s' & w' & tr & Hrun & Hcalls & Hthrow).
    exists out, s', w', tr.
    split; [exact Hrun | split; [ | split; [ | split; [exact Hthrow | ]]]].
    + exact (envelope_of_run d (mkTool "browser_wait_for_selector" WaitForSelectorArgs browserWaitForSelector)
                ltac:(in_server) _ _ _ _ _ _ _ Hrun).
    + destruct state, timeout; exact Hcalls.
    + intros message Hm. apply (Hthrow (ErrorObject message) Hm).
  - intros url.
    destruct (wait_for_url_run d s w url timeout)
      as (out & s' & w' & tr & Hrun & Hcalls & Hthrow).
    exists out, s', w', tr.
    split; [exact Hrun | split; [ | split; [ | split; [exact Hthrow | ]]]].
    + exact (envelope_of_run d (mkTool "browser_wait_for_url" WaitForUrlArgs browserWaitForUrl)
                ltac:(in_server) _ _ _ _ _ _ _ Hrun).
    + destruct timeout; exact Hcalls.
    + intros message Hm. apply (Hthrow (ErrorObject message) Hm).
Qed.

Lemma waits_default_to_30000_and_report_timeouts_witness :
  (exists s' w' tr,
     run SpecDriver.driver
       (browserWaitForSelector (mkWaitForSelectorArgs "#nope" None None) Scenario.attached)
       Scenario.browsing =
       (inr (error_envelope "Wait failed: Timeout 30000ms exceeded."), s', w', tr) /\
     pick wait_selector_call tr = [("#nope", Visible, Int 30000)] /\
     browser s' <> None) /\
  (exists s' w' tr,
     run SpecDriver.driver
       (browserWaitForSelector (mkWaitForSelectorArgs "#nope" None (Some (Int 1)))
          Scenario.attached)
       Scenario.browsing =
       (inr (error_envelope "Wait failed: Timeout 1ms exceeded."), s', w', tr) /\
     pick wait_selector_call tr = [("#nope", Visible, Int 1)] /\
     browser s' <> None) /\
  (exists s' w' tr,
     run SpecDriver.driver
       (browserWaitForUrl (mkWaitForUrlArgs "https://example.test/done" None)
          Scenario.attached)
       Scenario.browsing =
       (inr (error_envelope "Wait for URL failed: Timeout 30000ms exceeded."),
        s', w', tr) /\
     pick wait_url_call tr = [("https://example.test/done", Int 30000)] /\
     browser s' <> None) /\
  (exists s' w' tr,
     run Outage.nulls
       (browserWaitForUrl (mkWaitForUrlArgs "https://example.test/done" (Some (Int 5)))
          Scenario.attached) tt =
       (caught "Wait for URL failed" Null, s', w', tr)).
Proof.
  split; [ | split; [ | split]].
  - destruct (proj1 (waits_default_to_30000_and_report_timeouts SpecDriver.driver
                       Scenario.attached Scenario.browsing None) "#nope" None)
      as (out & s' & w' & tr & Hrun & _ & _ & _ & Htimeout).
    destruct (Htimeout "Timeout 30000ms exceeded.") as [Hout Hs].
    + cbn in Hrun. injection Hrun as <- <- <- <-. reflexivity.
    + rewrite Hout in Hrun. exists s', w', tr. split; [exact Hrun | ].
      split; [ | exact Hs].
      cbn in Hrun. injection Hrun as <- <- <-. reflexivity.
  - destruct (proj1 (waits_default_to_30000_and_report_timeouts SpecDriver.driver
                       Scenario.attached Scenario.browsing (Some (Int 1))) "#nope" None)
      as (out & s' & w' & tr & Hrun & _ & _ & _ & Htimeout).
    destruct (Htimeout "Timeout 1ms exceeded.") as [Hout Hs].
    + cbn in Hrun. injection Hrun as <- <- <- <-. reflexivity.
    + rewrite Hout in Hrun. exists s', w', tr. split; [exact Hrun | ].
      split; [ | exact Hs].
      cbn in Hrun. injection Hrun as <- <- <-. reflexivity.
  - destruct (proj2 (waits_default_to_30000_and_report_timeouts SpecDriver.driver
                       Scenario.attached Scenario.browsing None)
                "https://example.test/done")
      as (out & s' & w' & tr & Hrun & _ & _ & _ & Htimeout).
    destruct (Htimeout "Timeout 30000ms exceeded.") as [Hout Hs].
    + cbn in Hrun. injection Hrun as <- <- <- <-. reflexivity.
    + rewrite Hout in Hrun. exists s', w', tr. split; [exact Hrun | ].
      split; [ | exact Hs].
      cbn in Hrun. injection Hrun as <- <- <-. reflexivity.
  - destruct (proj2 (waits_default_to_30000_and_report_timeouts Outage.nulls
                       Scenario.attached tt (Some (Int 5)))
                "https://example.test/done")
      as (out & s' & w' & tr & Hrun & _).
    exists s', w', tr. rewrite Hrun.
    cbn in Hrun. injection Hrun as <- _ _ _. reflexivity.
Defined.

(** ** C9: an explicit timeout of zero *)

(** C9.  Against every driver, [browser_wait_for_selector] and
    [browser_wait_for_url] called with the timeout argument [0] run exactly
    as when the timeout is omitted, and the timeout of the wait call they
    make is 30000. *)
Theorem zero_timeout_is_replaced_by_default :
  forall (d : Driver) (s : ModuleState) (w : World d),
  (forall (selector : string) (state : option WaitState),
   run d (browserWaitForSelector
            (mkWaitForSelectorArgs selector state (Some (Int 0))) s) w =
   run d (browserWaitForSelector (mkWaitForSelectorArgs selector state None) s) w /\
   exists out s' w' tr,
     run d (browserWaitForSelector
              (mkWaitForSelectorArgs selector state (Some (Int 0))) s) w
       = (out, s', w', tr) /\
     envelope_if_readable tr out /\
     (map snd (pick wait_selector_call tr) = [Int 30000]
      \/ (pick wait_selector_call tr = [] /\ exists e, ending tr = LastThrew e))) /\
  (forall url : string,
   run d (browserWaitForUrl (mkWaitForUrlArgs url (Some (Int 0))) s) w =
   run d (browserWaitForUrl (mkWaitForUrlArgs url None) s) w /\
   exists out s' w' tr,
     run d (browserWaitForUrl (mkWaitForUrlArgs url (Some (Int 0))) s) w
       = (out, s', w', tr) /\
     envelope_if_readable tr out /\
     (map snd (pick wait_url_call tr) = [Int 30000]
      \/ (pick wait_url_call tr = [] /\ exists e, ending tr = LastThrew e))).
Proof.
  intros d s w. split.
  - intros selector state. split; [reflexivity | ].
    destruct (wait_for_selector_run d s w selector state (Some (Int 0)))
      as (out & s' & w' & tr & Hrun & Hcalls & _).
    exists out, s', w', tr.
    split; [exact Hrun | split; [exact (envelope_of_run d (mkTool "browser_wait_for_selector" WaitForSelectorArgs browserWaitForSelector)
                ltac:(in_server) _ _ _ _ _ _ _ Hrun) | ]].
    destruct Hcalls as [-> | Hnone]; [left; reflexivity | right; exact Hnone].
  - intros url. split; [reflexivity | ].
    destruct (wait_for_url_run d s w url (Some (Int 0)))
      as (out & s' & w' & tr & Hrun & Hcalls & _).
    exists out, s', w', tr.
    split; [exact Hrun | split; [exact (envelope_of_run d (mkTool "browser_wait_for_url" WaitForUrlArgs browserWaitForUrl)
                ltac:(in_server) _ _ _ _ _ _ _ Hrun) | ]].
    destruct Hcalls as [-> | Hnone]; [left; reflexivity | right; exact Hnone].
Qed.

(** ** C10: placeholders for empty values *)

(** What [browser_get_text] answers once [textContent] has returned [v]. *)
Lemma get_text_run (d : Driver) (s : ModuleState) (w : World d) (selector : string) :
  exists out s' w' tr,
    run d (browserGetText (mkSelectorArgs selector) s) w = (out, s', w', tr) /\
    forall v, pick text_content_read tr = [v] ->
      out = inr (text_envelope (or_string v "(empty)")).
Proof.
  unfold_handlers; follow_run.
  all: do 4 eexists; (split; [reflexivity | ]); cbn.
  all: intros v Hv; try discriminate Hv.
  all: injection Hv as <-; reflexivity.
Qed.

(** What [browser_get_attribute] answers once [getAttribute] has returned [v]. *)
Lemma get_attribute_run (d : Driver) (s : ModuleState) (w : World d)
    (selector attribute : string) :
  exists out s' w' tr,
    run d (browserGetAttribute (mkGetAttributeArgs selector attribute) s) w
      = (out, s', w', tr) /\
    forall v, pick attribute_read tr = [v] ->
      out = inr (text_envelope (or_string v "(null)")).
Proof.
  unfold_handlers; follow_run.
  all: do 4 eexists; (split; [reflexivity | ]); cbn.
  all: intros v Hv; try discriminate Hv.
  all: injection Hv as <-; reflexivity.
Qed.

(** C10.  Against every driver: when [textContent] returns [null] or the
    empty string, [browser_get_text] answers with the success envelope whose
    text is "(empty)", which is also its answer when the text content is
    the string "(empty)" itself; when [getAttribute] returns [null] or the
    empty string, [browser_get_attribute] answers with the success envelope
    whose text is "(null)", which is also its answer when the attribute's
    value is the string "(null)" itself. *)
Theorem empty_values_become_placeholders :
  forall (d : Driver) (s : ModuleState) (w : World d),
  (forall selector : string,
   exists out s' w' tr,
     run d (browserGetText (mkSelectorArgs selector) s) w = (out, s', w', tr) /\
     envelope_if_readable tr out /\
     forall v, pick text_content_read tr = [v] ->
       v = None \/ v = Some EmptyString \/ v = Some "(empty)" ->
       out = inr (text_envelope "(empty)") /\ isError_of out = None) /\
  (forall selector attribute : string,
   exists out s' w' tr,
     run d (browserGetAttribute (mkGetAttributeArgs selector attribute) s) w
       = (out, s', w', tr) /\
     envelope_if_readable tr out /\
     forall v, pick attribute_read tr = [v] ->
       v = None \/ v = Some EmptyString \/ v = Some "(null)" ->
       out = inr (text_envelope "(null)") /\ isError_of out = None).
Proof.
  intros d s w. split.
  - intros selector.
    destruct (get_text_run d s w selector) as (out & s' & w' & tr & Hrun & Hread).
    exists out, s', w', tr.
    split; [exact Hrun | split; [exact (envelope_of_run d (mkTool "browser_get_text" SelectorArgs browserGetText)
                ltac:(in_server) _ _ _ _ _ _ _ Hrun) | ]].
    intros v Hv Hcase. rewrite (Hread v Hv).
    destruct Hcase as [-> | [-> | ->]]; split; reflexivity.
  - intros selector attribute.
    destruct (get_attribute_run d s w selector attribute)
      as (out & s' & w' & tr & Hrun & Hread).
    exists out, s', w', tr.
    split; [exact Hrun | split; [exact (envelope_of_run d (mkTool "browser_get_attribute" GetAttributeArgs browserGetAttribute)
                ltac:(in_server) _ _ _ _ _ _ _ Hrun) | ]].
    intros v Hv Hcase. rewrite (Hread v Hv).
    destruct Hcase as [-> | [-> | ->]]; split; reflexivity.
Qed.

Lemma empty_values_become_placeholders_witness :
  (exists s' w' tr,
     run SpecDriver.driver (browserGetText (mkSelectorArgs "#bare") Scenario.attached)
       Scenario.browsing = (inr (text_envelope "(empty)"), s', w', tr) /\
     pick text_content_read tr = [None]) /\
  (exists s' w' tr,
     run SpecDriver.driver (browserGetText (mkSelectorArgs "#literal") Scenario.attached)
       Scenario.browsing = (inr (text_envelope "(empty)"), s', w', tr) /\
     pick text_content_read tr = [Some "(empty)"]) /\
  (exists s' w' tr,
     run SpecDriver.driver
       (browserGetAttribute (mkGetAttributeArgs "#bare" "title") Scenario.attached)
       Scenario.browsing = (inr (text_envelope "(null)"), s', w', tr) /\
     pick attribute_read tr = [Some EmptyString]).
Proof.
  pose proof (empty_values_become_placeholders SpecDriver.driver
                Scenario.attached Scenario.browsing) as [Htext Hattr].
  split; [ | split].
  - destruct (Htext "#bare") as (out & s' & w' & tr & Hrun & _ & Hread).
    destruct (Hread None) as [Henv _].
    + cbn in Hrun. injection Hrun as <- <- <- <-. reflexivity.
    + left. reflexivity.
    + rewrite Henv in Hrun. do 3 eexists. split; [exact Hrun | ].
      cbn in Hrun. injection Hrun as <- <- <-. reflexivity.
  - destruct (Htext "#literal") as (out & s' & w' & tr & Hrun & _ & Hread).
    destruct (Hread (Some "(empty)")) as [Henv _].
    + cbn in Hrun. injection Hrun as <- <- <- <-. reflexivity.
    + right. right. reflexivity.
    + rewrite Henv in Hrun. do 3 eexists. split; [exact Hrun | ].
      cbn in Hrun. injection Hrun as <- <- <-. reflexivity.
  - destruct (Hattr "#bare" "title") as (out & s' & w' & tr & Hrun & _ & Hread).
    destruct (Hread (Some EmptyString)) as [Henv _].
    + cbn in Hrun. injection Hrun as <- <- <- <-. reflexivity.
    + right. left. reflexivity.
    + rewrite Henv in Hrun. do 3 eexists. split; [exact Hrun | ].
      cbn in Hrun. injection Hrun as <- <- <-. reflexivity.
Defined.

(** ** The driver of the spec: registry and reference table *)

Module SpecFacts.
Import SpecDriver.

Lemma nth_set_nth {A : Type} (i : nat) (x d : A) (l : list A) :
  i < List.length l -> nth i (set_nth i x l) d = x.
Proof.
  revert i. induction l as [ | y l IH]; intros [ | i] Hi; simpl in *; try lia.
  - reflexivity.
  - apply IH. lia.
Qed.

(** A live session is a manager object of the world. *)
Lemma live_in_range (w : SpecWorld) (i : nat) :
  live (session_of w (ManagerRef i)) = true -> i < List.length (sessions w).
Proof.
  simpl. intros Hlive.
  destruct (Nat.lt_ge_cases i (List.length (sessions w))) as [Hlt | Hge]; [exact Hlt | ].
  rewrite nth_overflow in Hlive by exact Hge. discriminate Hlive.
Qed.

Lemma active_page_live (w : SpecWorld) (b : BrowserManager) (pid : nat) :
  active_page w b = Some pid -> live (session_of w b) = true.
Proof.
  unfold active_page. destruct (live (session_of w b)); [reflexivity | discriminate].
Qed.

Lemma session_of_put (w : SpecWorld) (b : BrowserManager) (x : Session) :
  live (session_of w b) = true -> session_of (put_session w b x) b = x.
Proof.
  destruct b as [i]. intros Hlive. simpl.
  apply nth_set_nth. apply live_in_range. exact Hlive.
Qed.

Lemma page_of_put_session (w : SpecWorld) (b : BrowserManager) (x : Session) (pid : nat) :
  page_of (put_session w b x) pid = page_of w pid.
Proof. destruct b. reflexivity. Qed.

Lemma active_page_put (w : SpecWorld) (b : BrowserManager) (x : Session) :
  live (session_of w b) = true ->
  live x = live (session_of w b) ->
  tabs x = tabs (session_of w b) ->
  active x = active (session_of w b) ->
  active_page (put_session w b x) b = active_page w b.
Proof.
  intros Hlive Hl Ht Ha. unfold active_page.
  rewrite (session_of_put w b x Hlive), Hl, Ht, Ha. reflexivity.
Qed.

(** [browser_snapshot] on a live session: one [getSnapshot] call, after which
    the session holds the table minted from the active page, and nothing of
    the table it held before. *)
Lemma snapshot_run (w : SpecWorld) (s : ModuleState) (b : BrowserManager) (pid : nat)
    (args : SnapshotArgs) :
  browser s = Some b ->
  active_page w b = Some pid ->
  let opts := mkSnapshotOptions (sn_interactive args) (sn_compact args)
                (sn_maxDepth args) in
  let x := session_of w b in
  exists env,
    run driver (browserSnapshot args s) w =
      (inr env, s,
       put_session w b
         (mkSession (live x) (config x) (tabs x) (active x)
            (minted_table opts pid (page_of w pid)) (S (generation x))),
       [Ev (GetSnapshot b opts) (inr (mkSnapshot (render opts (page_of w pid))))]) /\
    isError env = None.
Proof.
  intros Hb Hpage opts x.
  unfold browserSnapshot. rewrite run_with_session.
  rewrite (getBrowser_reuses driver s w b Hb).
  cbv [try_catch bind call ret].
  cbn [run pbind driver exec spec_exec].
  unfold getSnapshot. rewrite Hpage. cbn [run pbind app].
  eexists. split; reflexivity.
Qed.

(** [browser_click] on a reference token that the current table does not
    hold: resolution fails, and the command makes no other call. *)
Lemma click_unknown_reference (w : SpecWorld) (s : ModuleState) (b : BrowserManager)
    (pid : nat) (selector tok : string) (button : option MouseButton)
    (clickCount : option number) :
  browser s = Some b ->
  active_page w b = Some pid ->
  reference_token selector = Some tok ->
  lookup tok (refTable (session_of w b)) = None ->
  run driver (browserClick (mkClickArgs selector button clickCount) s) w =
    (caught "Click failed" (UnknownReferenceError selector),
     s, w, [Ev (GetLocator b selector) (inl (UnknownReferenceError selector))]).
Proof.
  intros Hb Hpage Htok Hlookup.
  unfold browserClick. rewrite run_with_session.
  rewrite (getBrowser_reuses driver s w b Hb).
  cbv [try_catch bind call ret message_of ca_selector ca_button ca_clickCount].
  cbn [run pbind driver exec spec_exec].
  unfold getLocator. rewrite Hpage, Htok, Hlookup. reflexivity.
Qed.

(** A reference token that the current table holds resolves to the node the
    table records for it. *)
Lemma resolve_known_reference (w : SpecWorld) (b : BrowserManager)
    (pid : nat) (selector tok : string) (target : Target) :
  active_page w b = Some pid ->
  reference_token selector = Some tok ->
  lookup tok (refTable (session_of w b)) = Some target ->
  exists l w2,
    exec driver (GetLocator b selector) w = (inr l, w2) /\
    target_of w2 l = Some target.
Proof.
  intros Hpage Htok Hlookup.
  cbn [driver exec spec_exec]. unfold getLocator.
  rewrite Hpage, Htok, Hlookup. cbn.
  do 2 eexists. split; [reflexivity | ].
  cbn. apply nth_middle.
Qed.

End SpecFacts.

(** ** A throw of the driver at the command boundary *)

Section DriverThrows.

Variable d : Driver.
Variables (s : ModuleState) (b : BrowserManager).
Hypothesis singleton : browser s = Some b.

(** When [switchTo] throws, [browser_switch_tab] reports it and stops. *)
Lemma switch_tab_reports_throw (w w1 : World d) (index : number) (e : Thrown) :
  exec d (SwitchTo b index) w = (inl e, w1) ->
  run d (browserSwitchTab (mkSwitchTabArgs index) s) w =
    (caught "Switch tab failed" e, s, w1, [Ev (SwitchTo b index) (inl e)]).
Proof.
  intros Hthrow.
  unfold browserSwitchTab. rewrite run_with_session.
  rewrite (getBrowser_reuses d s w b singleton).
  cbv [try_catch bind call ret message_of caught]. cbn. rewrite Hthrow. cbn.
  destruct (read_message e); reflexivity.
Qed.

(** When the resolution of the locator throws, [browser_click] reports it
    and makes no call on any element. *)
Lemma click_reports_failed_resolution (w w1 : World d) (args : ClickArgs) (e : Thrown) :
  exec d (GetLocator b (ca_selector args)) w = (inl e, w1) ->
  run d (browserClick args s) w =
    (caught "Click failed" e, s, w1,
     [Ev (GetLocator b (ca_selector args)) (inl e)]).
Proof.
  intros Hthrow.
  unfold browserClick. rewrite run_with_session.
  rewrite (getBrowser_reuses d s w b singleton).
  cbv [try_catch bind call ret message_of caught]. cbn. rewrite Hthrow. cbn.
  destruct (read_message e); reflexivity.
Qed.

End DriverThrows.

(** ** C6: switching to a tab that does not exist *)

(** C6.  On the driver of the spec, for every index that is not a valid
    Page index of the registry the command addresses, [browser_switch_tab]
    returns the error envelope "Switch tab failed: ..." with [isError] set,
    and the world of the driver is left as it was, so the registry marks the
    same tab active after the call as before it.  The registry addressed is
    that of the session in the singleton; when the singleton is empty it is
    that of the session the command creates first, and the index is judged
    against it. *)
Theorem switch_to_invalid_index_changes_nothing :
  forall (w : SpecDriver.SpecWorld) (s : ModuleState) (index : number),
  (forall b : BrowserManager,
   browser s = Some b ->
   SpecDriver.valid_index w b index = None ->
   exists text env w',
     run SpecDriver.driver (browserSwitchTab (mkSwitchTabArgs index) s) w =
       (inr env, s, w', [Ev (SwitchTo b index) (inl (ErrorObject text))]) /\
     env = error_envelope ("Switch tab failed: " ++ text) /\
     isError env = Some true /\
     w' = w /\
     SpecDriver.active (SpecDriver.session_of w' b) =
       SpecDriver.active (SpecDriver.session_of w b) /\
     SpecDriver.active_page w' b = SpecDriver.active_page w b) /\
  (forall (b : BrowserManager) (s1 : ModuleState) (w1 : SpecDriver.SpecWorld)
          (tr1 : list Event),
   browser s = None ->
   run SpecDriver.driver (getBrowser s) w = (inr b, s1, w1, tr1) ->
   SpecDriver.valid_index w1 b index = None ->
   exists text env w',
     run SpecDriver.driver (browserSwitchTab (mkSwitchTabArgs index) s) w =
       (inr env, s1, w', (tr1 ++ [Ev (SwitchTo b index) (inl (ErrorObject text))])%list) /\
     env = error_envelope ("Switch tab failed: " ++ text) /\
     isError env = Some true /\
     w' = w1 /\
     SpecDriver.active (SpecDriver.session_of w' b) =
       SpecDriver.active (SpecDriver.session_of w1 b)).
Proof.
  intros w s index.
  assert (Hgen : forall b s1 w1 tr1,
    run SpecDriver.driver (getBrowser s) w = (inr b, s1, w1, tr1) ->
    SpecDriver.valid_index w1 b index = None ->
    run SpecDriver.driver (browserSwitchTab (mkSwitchTabArgs index) s) w =
      (caught "Switch tab failed" (SpecDriver.IndexOutOfRangeError index),
       s1, w1,
       (tr1 ++ [Ev (SwitchTo b index) (inl (SpecDriver.IndexOutOfRangeError index))])%list)).
  { intros b s1 w1 tr1 Hget Hinvalid.
    unfold browserSwitchTab. rewrite run_with_session. rewrite Hget.
    cbv [try_catch bind call ret message_of]. cbn.
    unfold SpecDriver.switchTo. rewrite Hinvalid. reflexivity. }
  split.
  - intros b Hb Hinvalid.
    exists ("IndexOutOfRangeError: " ++ show_number index). do 2 eexists.
    split; [ | repeat split].
    apply (Hgen b s w []); [ | exact Hinvalid].
    apply getBrowser_reuses. exact Hb.
  - intros b s1 w1 tr1 Hb Hget Hinvalid.
    exists ("IndexOutOfRangeError: " ++ show_number index). do 2 eexists.
    split; [ | repeat split].
    apply (Hgen b s1 w1 tr1); assumption.
Qed.

Lemma switch_to_invalid_index_changes_nothing_witness :
  (exists text env w',
     run SpecDriver.driver (browserSwitchTab (mkSwitchTabArgs (Int 3)) Scenario.attached)
       Scenario.browsing =
       (inr env, Scenario.attached, w',
        [Ev (SwitchTo (ManagerRef 0) (Int 3)) (inl (ErrorObject text))]) /\
     env = error_envelope ("Switch tab failed: " ++ text) /\
     isError env = Some true /\
     w' = Scenario.browsing /\
     SpecDriver.active (SpecDriver.session_of w' (ManagerRef 0)) =
       SpecDriver.active (SpecDriver.session_of Scenario.browsing (ManagerRef 0)) /\
     SpecDriver.active_page w' (ManagerRef 0) =
       SpecDriver.active_page Scenario.browsing (ManagerRef 0)) /\
  (exists text env s1 w1 tr w',
     run SpecDriver.driver (browserSwitchTab (mkSwitchTabArgs (Int 1)) initial_state)
       Scenario.fresh = (inr env, s1, w', tr) /\
     env = error_envelope ("Switch tab failed: " ++ text) /\
     isError env = Some true /\
     w' = w1 /\
     SpecDriver.active (SpecDriver.session_of w' (ManagerRef 0)) =
       SpecDriver.active (SpecDriver.session_of w1 (ManagerRef 0))).
Proof.
  split.
  - apply (proj1 (switch_to_invalid_index_changes_nothing Scenario.browsing
                    Scenario.attached (Int 3)) (ManagerRef 0)); reflexivity.
  - edestruct (proj2 (switch_to_invalid_index_changes_nothing Scenario.fresh
                        initial_state (Int 1)) (ManagerRef 0))
      as (e & env & w' & H).
    + reflexivity.
    + reflexivity.
    + reflexivity.
    + exists e, env. do 3 eexists. exists w'. exact H.
Defined.

(** ** C7: reference tokens across snapshots *)

(** C7 as stated fails on the driver of the spec.  Two snapshots of the
    unchanged page [home] mint the same tokens; the token [e1], minted by
    generation 1, is used after generation 2 has superseded it, and
    [browser_click] answers with a success envelope and clicks the button. *)
Lemma token_of_superseded_generation_still_clicks :
  let b := ManagerRef 0 in
  let everything := mkSnapshotArgs None None None in
  let '(_, s1, w1, _) :=
    run SpecDriver.driver (browserSnapshot everything Scenario.attached)
      Scenario.browsing in
  let '(_, s2, w2, _) := run SpecDriver.driver (browserSnapshot everything s1) w1 in
  let '(env, _, w3, tr) :=
    run SpecDriver.driver (browserClick (mkClickArgs "e1" None None) s2) w2 in
  SpecDriver.generation (SpecDriver.session_of w1 b) = 1 /\
  SpecDriver.lookup "e1" (SpecDriver.refTable (SpecDriver.session_of w1 b)) = Some (0, 0) /\
  SpecDriver.generation (SpecDriver.session_of w2 b) = 2 /\
  env = inr (text_envelope ("Clicked " ++ dquote ++ "e1" ++ dquote)) /\
  (forall text, env <> inr (error_envelope text)) /\
  existsb acts_on_element tr = true /\
  option_map SpecDriver.node_clicks (SpecDriver.node_at w3 (0, 0)) = Some 1.
Proof.
  cbn. repeat split. intros text H. discriminate H.
Qed.

(** C7, amended.  On the driver of the spec, once [browser_snapshot] has run
    on a live session, the reference table is the one this snapshot minted
    from the active page and the generation has advanced by one, whatever
    the table held before.  For every locator with the syntax of a reference
    token: if this snapshot did not mint the token, [browser_click] returns
    the error envelope "Click failed: UnknownReferenceError ..." and its
    only driver call is the failed resolution, so no element is acted on; if
    this snapshot minted the token, the token resolves to the node this
    snapshot recorded for it. *)
Theorem token_resolves_iff_minted_by_latest_snapshot :
  forall (w : SpecDriver.SpecWorld) (s : ModuleState) (b : BrowserManager)
         (pid : nat) (args : SnapshotArgs),
  browser s = Some b ->
  SpecDriver.active_page w b = Some pid ->
  let opts := mkSnapshotOptions (sn_interactive args) (sn_compact args)
                (sn_maxDepth args) in
  let table := SpecDriver.minted_table opts pid (SpecDriver.page_of w pid) in
  exists env w1 tr,
    run SpecDriver.driver (browserSnapshot args s) w = (inr env, s, w1, tr) /\
    isError env = None /\
    SpecDriver.refTable (SpecDriver.session_of w1 b) = table /\
    SpecDriver.generation (SpecDriver.session_of w1 b) =
      S (SpecDriver.generation (SpecDriver.session_of w b)) /\
    forall (selector tok : string) (button : option MouseButton)
           (clickCount : option number),
    SpecDriver.reference_token selector = Some tok ->
    (SpecDriver.lookup tok table = None ->
     exists text,
       run SpecDriver.driver
         (browserClick (mkClickArgs selector button clickCount) s) w1 =
         (inr (error_envelope ("Click failed: " ++ text)), s, w1,
          [Ev (GetLocator b selector) (inl (ErrorObject text))]) /\
       ErrorObject text = SpecDriver.UnknownReferenceError selector) /\
    (forall target, SpecDriver.lookup tok table = Some target ->
     exists l w2,
       exec SpecDriver.driver (GetLocator b selector) w1 = (inr l, w2) /\
       SpecDriver.target_of w2 l = Some target).
Proof.
  intros w s b pid args Hb Hpage opts table.
  pose proof (SpecFacts.active_page_live w b pid Hpage) as Hlive.
  destruct (SpecFacts.snapshot_run w s b pid args Hb Hpage) as (env & Hrun & Herr).
  fold opts in Hrun. fold table in Hrun.
  do 3 eexists. split; [exact Hrun | ].
  split; [exact Herr | ].
  rewrite (SpecFacts.session_of_put _ _ _ Hlive). cbn [SpecDriver.refTable SpecDriver.generation].
  split; [reflexivity | split; [reflexivity | ]].
  assert (Hpage1 : SpecDriver.active_page
            (SpecDriver.put_session w b
               (SpecDriver.mkSession (SpecDriver.live (SpecDriver.session_of w b))
                  (SpecDriver.config (SpecDriver.session_of w b))
                  (SpecDriver.tabs (SpecDriver.session_of w b))
                  (SpecDriver.active (SpecDriver.session_of w b))
                  table (S (SpecDriver.generation (SpecDriver.session_of w b))))) b
          = Some pid).
  { rewrite SpecFacts.active_page_put; [exact Hpage | exact Hlive | reflexivity ..]. }
  intros selector tok button clickCount Htok. split.
  - intros Hnone. eexists. split; [ | reflexivity].
    apply (SpecFacts.click_unknown_reference _ s b pid selector tok); try assumption.
    rewrite (SpecFacts.session_of_put _ _ _ Hlive). exact Hnone.
  - intros target Hsome.
    apply (SpecFacts.resolve_known_reference _ b pid selector tok); try assumption.
    rewrite (SpecFacts.session_of_put _ _ _ Hlive). exact Hsome.
Qed.

Lemma token_resolves_iff_minted_by_latest_snapshot_witness :
  exists env w1 tr,
    run SpecDriver.driver
      (browserSnapshot (mkSnapshotArgs (Some true) None None) Scenario.attached)
      Scenario.snapshotted = (inr env, Scenario.attached, w1, tr) /\
    isError env = None /\
    SpecDriver.refTable (SpecDriver.session_of w1 (ManagerRef 0)) = [("e1", (0, 0))] /\
    SpecDriver.generation (SpecDriver.session_of w1 (ManagerRef 0)) = 2 /\
    (exists text,
       run SpecDriver.driver
         (browserClick (mkClickArgs "e2" None None) Scenario.attached) w1 =
         (inr (error_envelope ("Click failed: " ++ text)), Scenario.attached, w1,
          [Ev (GetLocator (ManagerRef 0) "e2") (inl (ErrorObject text))]) /\
       ErrorObject text = SpecDriver.UnknownReferenceError "e2") /\
    (exists l w2,
       exec SpecDriver.driver (GetLocator (ManagerRef 0) "@e1") w1 = (inr l, w2) /\
       SpecDriver.target_of w2 l = Some (0, 0)).
Proof.
  destruct (token_resolves_iff_minted_by_latest_snapshot Scenario.snapshotted
              Scenario.attached (ManagerRef 0) 0
              (mkSnapshotArgs (Some true) None None) eq_refl eq_refl)
    as (env & w1 & tr & Hrun & Herr & Htable & Hgen & Hclick).
  exists env, w1, tr.
  split; [exact Hrun | split; [exact Herr | split; [exact Htable | split; [exact Hgen | ]]]].
  split.
  - apply (proj1 (Hclick "e2" "e2" None None eq_refl)). reflexivity.
  - apply (proj2 (Hclick "@e1" "e1" None None eq_refl)). reflexivity.
Defined.

(** ** C8: a lazy launch that throws *)

(** C8 as stated fails.  On the driver of the spec with a first launch that
    throws: [browser_get_url] fails and leaves the never-launched manager 0
    in the singleton; [browser_close] then succeeds and resets the singleton
    to [null]; the next [browser_get_url] finds the singleton empty,
    constructs manager 1 and launches it.  The launch was retried and the
    singleton replaced without any [browser_launch]. *)
Lemma close_after_failed_launch_leads_to_relaunch :
  let '(env1, s1, w1, _) :=
    run SpecDriver.driver (browserGetUrl tt initial_state) Scenario.faulty in
  let '(env2, s2, w2, _) := run SpecDriver.driver (browserClose tt s1) w1 in
  let '(env3, s3, w3, tr3) := run SpecDriver.driver (browserGetUrl tt s2) w2 in
  isError_of env1 = Some true /\
  browser s1 = Some (ManagerRef 0) /\
  SpecDriver.live (SpecDriver.session_of w1 (ManagerRef 0)) = false /\
  env2 = inr (text_envelope "Browser closed") /\
  browser s2 = None /\
  pick launch_call tr3 = [(ManagerRef 1, getBrowser_options)] /\
  env3 = inr (text_envelope "about:blank") /\
  browser s3 = Some (ManagerRef 1) /\
  browser s3 <> browser s1.
Proof.
  cbn. repeat split. discriminate.
Qed.

(** What one invocation of any tool does to a singleton that holds [b]: it
    keeps [b], or [browser_launch] stores a manager it has just constructed,
    or [browser_close] resets it to [null]. *)
Lemma singleton_changes_only_by_launch_or_close (d : Driver) :
  forall t : Tool, In t browserToolsServer ->
  forall (args : tool_args t) (s : ModuleState) (w : World d) (b : BrowserManager),
  browser s = Some b ->
  exists out s' w' tr,
    invoke d t args s w = (out, s', w', tr) /\
    envelope_if_readable tr out /\
    (browser s' = Some b \/
     (tool_name t = "browser_launch" /\
      exists b', pick new_manager_call tr = [inr b'] /\ browser s' = Some b') \/
     (tool_name t = "browser_close" /\ browser s' = None /\
      tr = [Ev (Close b) (inr tt)])).
Proof.
  intros t Ht.
  cbv [browserToolsServer] in Ht.
  repeat (destruct Ht as [<- | Ht]); [ .. | destruct Ht].
  all: intros args s w b Hb; unfold_handlers; cbn; rewrite ?Hb; follow_run.
  all: do 4 eexists; (split; [reflexivity | split; [settle_envelope | ]]); cbn.
  all: first [ left; assumption
             | right; left; split; [reflexivity | eexists; split; reflexivity]
             | right; right; repeat split;
               match goal with u : unit |- _ => destruct u end; reflexivity ].
Qed.

(** C8, amended.  Against every driver:
    - when the singleton is empty and the launch inside [getBrowser] throws,
      a session-requiring command ends with what its [catch] clause makes of
      the throw (its error envelope whenever the message of what was thrown
      can be read) and the singleton holds the manager that was constructed
      and never launched;
    - while the singleton holds a manager, every session-requiring command
      uses that manager, constructs none and launches nothing: the launch is
      not retried;
    - [browser_launch], when [isLaunched()] of that manager returns [false],
      constructs a new manager, stores it in the singleton and launches it;
    - an invocation of any tool leaves a non-empty singleton as it is,
      unless it is [browser_launch] storing a new manager or [browser_close]
      resetting it to [null] after [close()] returned;
    - once the singleton is empty again, a session-requiring command
      constructs a manager anew and launches it. *)
Theorem failed_lazy_launch_leaves_unlaunched_singleton :
  forall d : Driver,
  (forall t : Tool, In t browserToolsServer -> session_requiring (tool_name t) = true ->
   forall (args : tool_args t) (s : ModuleState) (w w1 w2 : World d)
          (b : BrowserManager) (e : Thrown),
   browser s = None ->
   exec d NewBrowserManager w = (inr b, w1) ->
   exec d (Launch b getBrowser_options) w1 = (inl e, w2) ->
   invoke d t args s w =
     (caught (failure_prefix (tool_name t)) e,
      set_browser (Some b) s, w2,
      [Ev NewBrowserManager (inr b); Ev (Launch b getBrowser_options) (inl e)]) /\
   browser (set_browser (Some b) s) = Some b) /\
  (forall t : Tool, In t browserToolsServer -> session_requiring (tool_name t) = true ->
   forall (args : tool_args t) (s : ModuleState) (w : World d) (b : BrowserManager),
   browser s = Some b ->
   exists out w' tr,
     invoke d t args s w = (out, s, w', tr) /\
     envelope_if_readable tr out /\
     pick new_manager_call tr = [] /\
     pick launch_call tr = [] /\
     forallb (fun b' => match b, b' with ManagerRef i, ManagerRef j => Nat.eqb i j end)
       (pick manager_of tr) = true) /\
  (forall (args : LaunchArgs) (s : ModuleState) (w w1 w2 : World d)
          (b b' : BrowserManager),
   browser s = Some b ->
   exec d (IsLaunched b) w = (inr false, w1) ->
   exec d NewBrowserManager w1 = (inr b', w2) ->
   exists out s' w' tr,
     run d (browserLaunch args s) w = (out, s', w', tr) /\
     envelope_if_readable tr out /\
     browser s' = Some b' /\
     pick launch_call tr =
       [(b', mkLaunchOptions None None (nullish (la_headless args) true)
               (la_viewport args))]) /\
  (forall t : Tool, In t browserToolsServer ->
   forall (args : tool_args t) (s : ModuleState) (w : World d) (b : BrowserManager),
   browser s = Some b ->
   exists out s' w' tr,
     invoke d t args s w = (out, s', w', tr) /\
     envelope_if_readable tr out /\
     (browser s' = Some b \/
      (tool_name t = "browser_launch" /\
       exists b', pick new_manager_call tr = [inr b'] /\ browser s' = Some b') \/
      (tool_name t = "browser_close" /\ browser s' = None /\
       tr = [Ev (Close b) (inr tt)]))) /\
  (forall t : Tool, In t browserToolsServer -> session_requiring (tool_name t) = true ->
   forall (args : tool_args t) (s : ModuleState) (w : World d),
   browser s = None ->
   exists out s' w' tr r,
     invoke d t args s w = (out, s', w', tr) /\
     envelope_if_readable tr out /\
     pick new_manager_call tr = [r] /\
     pick launch_call tr = match r with
                           | inr b' => [(b', getBrowser_options)]
                           | inl _ => []
                           end).
Proof.
  intros d. split; [ | split; [ | split; [ | split]]].
  - intros t Ht Hs args s w w1 w2 b e Hb Hnew Hlaunch.
    destruct (session_tool_on_absent d t Ht Hs args s w Hb)
      as (out & s' & w' & tr & Hrun & Htr).
    rewrite Hnew in Htr. destruct Htr as (-> & Htr).
    rewrite Hlaunch in Htr. destruct Htr as (-> & -> & ->).
    split; [exact Hrun | reflexivity].
  - apply session_tool_on_existing.
  - intros args s w w1 w2 b b' Hb Hlive Hnew.
    unfold_handlers. cbn. rewrite Hb. cbn. rewrite Hlive. cbn. rewrite Hnew.
    follow_run.
    all: do 4 eexists; (split; [reflexivity | split; [settle_envelope | ]]).
    all: repeat split.
  - apply singleton_changes_only_by_launch_or_close.
  - intros t Ht Hs args s w Hb.
    destruct (session_tool_on_absent d t Ht Hs args s w Hb)
      as (out & s' & w' & tr & Hrun & Htr).
    pose proof (envelope_of_run d t Ht _ _ _ _ _ _ _ Hrun) as Henv.
    exists out, s', w', tr.
    destruct (exec d NewBrowserManager w) as [[e | b] w1].
    + destruct Htr as (-> & _). exists (inl e).
      split; [exact Hrun | split; [exact Henv | split; reflexivity]].
    + destruct Htr as (_ & Htr). exists (inr b).
      destruct (exec d (Launch b getBrowser_options) w1) as [[e | u] w2].
      * destruct Htr as (-> & _).
        split; [exact Hrun | split; [exact Henv | split; reflexivity]].
      * destruct Htr as (rest & -> & Hn & Hl).
        split; [exact Hrun | split; [exact Henv | ]].
        cbn. rewrite Hn, Hl. split; reflexivity.
Qed.

Lemma failed_lazy_launch_leaves_unlaunched_singleton_witness :
  (invoke SpecDriver.driver (mkTool "browser_get_url" unit browserGetUrl) tt
     initial_state Scenario.faulty =
     (inr (error_envelope
             "Get URL failed: DriverActionError: the browser could not be launched"),
      set_browser (Some (ManagerRef 0)) initial_state, Scenario.unlaunched,
      [Ev NewBrowserManager (inr (ManagerRef 0));
       Ev (Launch (ManagerRef 0) getBrowser_options)
         (inl (SpecDriver.DriverActionError "the browser could not be launched"))]) /\
   browser (set_browser (Some (ManagerRef 0)) initial_state) = Some (ManagerRef 0)) /\
  (exists out w' tr,
     invoke SpecDriver.driver (mkTool "browser_get_url" unit browserGetUrl) tt
       Scenario.attached Scenario.unlaunched = (out, Scenario.attached, w', tr) /\
     envelope_if_readable tr out /\
     pick new_manager_call tr = [] /\
     pick launch_call tr = [] /\
     forallb (fun b' => match b' with ManagerRef j => Nat.eqb 0 j end)
       (pick manager_of tr) = true) /\
  (exists out s' w' tr,
     run SpecDriver.driver (browserLaunch (mkLaunchArgs None None) Scenario.attached)
       Scenario.unlaunched = (out, s', w', tr) /\
     envelope_if_readable tr out /\
     browser s' = Some (ManagerRef 1) /\
     pick launch_call tr = [(ManagerRef 1, mkLaunchOptions None None true None)]) /\
  (exists out s' w' tr,
     invoke SpecDriver.driver (mkTool "browser_close" unit browserClose) tt
       Scenario.attached Scenario.unlaunched = (out, s', w', tr) /\
     envelope_if_readable tr out /\
     (browser s' = Some (ManagerRef 0) \/
      ("browser_close" = "browser_launch" /\
       exists b', pick new_manager_call tr = [inr b'] /\ browser s' = Some b') \/
      ("browser_close" = "browser_close" /\ browser s' = None /\
       tr = [Ev (Close (ManagerRef 0)) (inr tt)]))) /\
  (exists out s' w' tr r,
     invoke SpecDriver.driver (mkTool "browser_get_url" unit browserGetUrl) tt
       initial_state Scenario.unlaunched = (out, s', w', tr) /\
     envelope_if_readable tr out /\
     pick new_manager_call tr = [r] /\
     pick launch_call tr = match r with
                           | inr b' => [(b', getBrowser_options)]
                           | inl _ => []
                           end).
Proof.
  destruct (failed_lazy_launch_leaves_unlaunched_singleton SpecDriver.driver)
    as (Hfail & Hreuse & Hlaunch & Honly & Hagain).
  assert (Hurl : In (mkTool "browser_get_url" unit browserGetUrl) browserToolsServer).
  { simpl. do 18 right. left. reflexivity. }
  assert (Hclose : In (mkTool "browser_close" unit browserClose) browserToolsServer).
  { simpl. do 30 right. left. reflexivity. }
  split; [ | split; [ | split; [ | split]]].
  - apply (Hfail _ Hurl eq_refl tt initial_state Scenario.faulty
             (snd (exec SpecDriver.driver NewBrowserManager Scenario.faulty))
             Scenario.unlaunched (ManagerRef 0)
             (SpecDriver.DriverActionError "the browser could not be launched"));
      reflexivity.
  - apply (Hreuse _ Hurl eq_refl tt Scenario.attached Scenario.unlaunched (ManagerRef 0)).
    reflexivity.
  - apply (Hlaunch (mkLaunchArgs None None) Scenario.attached Scenario.unlaunched
             Scenario.unlaunched
             (snd (exec SpecDriver.driver NewBrowserManager Scenario.unlaunched))
             (ManagerRef 0) (ManagerRef 1)); reflexivity.
  - apply (Honly _ Hclose tt Scenario.attached Scenario.unlaunched (ManagerRef 0)).
    reflexivity.
  - apply (Hagain _ Hurl eq_refl tt initial_state Scenario.unlaunched). reflexivity.
Defined.

(** * Further properties of the command layer *)

(** ** Cleaning up: [closeBrowser] and [browser_close] *)

(** X1.  [closeBrowser], the clean-up that [index.ts] awaits, has no
    [catch]: with an empty singleton it makes no call; when [close()]
    returns it resets the singleton; when [close()] throws, the error
    propagates to the caller and the singleton keeps the manager, whereas
    [browser_close] in the same situation ends with what its [catch] clause
    makes of the throw: the error envelope "Close failed: ..." whenever the
    message of what was thrown can be read. *)
Theorem closeBrowser_propagates_a_failed_close :
  forall (d : Driver) (s : ModuleState) (w : World d),
  (browser s = None -> run d (closeBrowser s) w = (inr tt, s, w, [])) /\
  (forall (b : BrowserManager) (w1 : World d),
   browser s = Some b ->
   exec d (Close b) w = (inr tt, w1) ->
   run d (closeBrowser s) w =
     (inr tt, set_browser None s, w1, [Ev (Close b) (inr tt)])) /\
  (forall (b : BrowserManager) (e : Thrown) (w1 : World d),
   browser s = Some b ->
   exec d (Close b) w = (inl e, w1) ->
   run d (closeBrowser s) w = (inl e, s, w1, [Ev (Close b) (inl e)]) /\
   run d (browserClose tt s) w =
     (caught "Close failed" e, s, w1, [Ev (Close b) (inl e)]) /\
   forall message, e = ErrorObject message ->
     run d (browserClose tt s) w =
       (inr (error_envelope ("Close failed: " ++ message)), s, w1,
        [Ev (Close b) (inl e)])).
Proof.
  intros d s w. split; [ | split].
  - intros Hb. unfold_handlers. cbn. rewrite Hb. reflexivity.
  - intros b w1 Hb Hclose. unfold_handlers. cbn. rewrite Hb. cbn.
    rewrite Hclose. reflexivity.
  - intros b e w1 Hb Hclose. split; [ | split].
    + unfold_handlers. cbn. rewrite Hb. cbn. rewrite Hclose. reflexivity.
    + unfold_handlers. cbn. rewrite Hb. cbn. rewrite Hclose. cbn.
      destruct (read_message e); reflexivity.
    + intros message ->.
      unfold_handlers. cbn. rewrite Hb. cbn. rewrite Hclose. reflexivity.
Qed.

Lemma closeBrowser_propagates_a_failed_close_witness :
  run SpecDriver.driver (closeBrowser initial_state) Scenario.fresh =
    (inr tt, initial_state, Scenario.fresh, []) /\
  (exists w1,
     run SpecDriver.driver (closeBrowser Scenario.attached) Scenario.browsing =
       (inr tt, set_browser None Scenario.attached, w1,
        [Ev (Close (ManagerRef 0)) (inr tt)])) /\
  (run Outage.down (closeBrowser Scenario.attached) tt =
     (inl Outage.unreachable, Scenario.attached, tt,
      [Ev (Close (ManagerRef 0)) (inl Outage.unreachable)]) /\
   run Outage.down (browserClose tt Scenario.attached) tt =
     (inr (error_envelope "Close failed: browser process is not reachable"),
      Scenario.attached, tt,
      [Ev (Close (ManagerRef 0)) (inl Outage.unreachable)])).
Proof.
  split; [ | split].
  - apply (proj1 (closeBrowser_propagates_a_failed_close SpecDriver.driver
                    initial_state Scenario.fresh)). reflexivity.
  - eexists.
    apply (proj1 (proj2 (closeBrowser_propagates_a_failed_close SpecDriver.driver
                           Scenario.attached Scenario.browsing)) (ManagerRef 0));
      reflexivity.
  - destruct (proj2 (proj2 (closeBrowser_propagates_a_failed_close Outage.down
                              Scenario.attached tt))
                (ManagerRef 0) Outage.unreachable tt)
      as (Hclean & _ & Htool).
    + reflexivity.
    + reflexivity.
    + split; [exact Hclean | ].
      apply (Htool "browser process is not reachable"). reflexivity.
Defined.

(** X2.  [browser_close] is idempotent: once an invocation has answered
    without the error marker, the singleton is empty, and a second
    invocation answers "Browser closed" again without any driver call and
    without changing anything. *)
Theorem browser_close_twice_is_a_no_op :
  forall (d : Driver) (s s1 : ModuleState) (w w1 : World d) (env : Envelope)
         (tr : list Event),
  run d (browserClose tt s) w = (inr env, s1, w1, tr) ->
  isError env = None ->
  browser s1 = None /\
  env = text_envelope "Browser closed" /\
  run d (browserClose tt s1) w1 =
    (inr (text_envelope "Browser closed"), s1, w1, []).
Proof.
  intros d s s1 w w1 env tr Hrun Hok.
  revert Hrun. unfold_handlers. cbn.
  destruct (browser s) as [b | ] eqn:Hb; cbn.
  - destruct (exec d (Close b) w) as [[e | u] w2]; cbn;
      [destruct (read_message e); cbn | ]; intros Hrun;
      try discriminate Hrun; injection Hrun as <- <- <- <-.
    + discriminate Hok.
    + repeat split.
  - intros Hrun. injection Hrun as <- <- <- <-. rewrite Hb. repeat split.
Qed.

Lemma browser_close_twice_is_a_no_op_witness :
  exists s1 w1 tr,
    run SpecDriver.driver (browserClose tt Scenario.attached) Scenario.browsing =
      (inr (text_envelope "Browser closed"), s1, w1, tr) /\
    browser s1 = None /\
    run SpecDriver.driver (browserClose tt s1) w1 =
      (inr (text_envelope "Browser closed"), s1, w1, []).
Proof.
  do 3 eexists.
  split; [reflexivity | ].
  edestruct (browser_close_twice_is_a_no_op SpecDriver.driver Scenario.attached)
    as (Hnone & _ & Hagain).
  - reflexivity.
  - reflexivity.
  - split; [exact Hnone | exact Hagain].
Defined.

(** ** [browser_wait] *)


(** The text of the answer shows the duration as a template literal does. *)
Example browser_wait_texts :
  fst (fst (fst (run SpecDriver.driver
              (browserWait (mkWaitArgs (Int 1500)) initial_state) Scenario.fresh)))
    = inr (text_envelope "Waited 1500ms") /\
  fst (fst (fst (run SpecDriver.driver
              (browserWait (mkWaitArgs (Int (10 ^ 21))) initial_state) Scenario.fresh)))
    = inr (text_envelope "Waited 1e+21ms") /\
  fst (fst (fst (run SpecDriver.driver
              (browserWait (mkWaitArgs (Other "0.5")) initial_state) Scenario.fresh)))
    = inr (text_envelope "Waited 0.5ms").
Proof. vm_compute. repeat split. Qed.

(** ** Optional selectors *)

(** X4.  An empty-string selector counts as an omitted one: [browser_press],
    [browser_scroll] and [browser_screenshot] called with [selector: ""] run
    exactly as without a selector, and resolve no locator: the key goes to
    the page keyboard, the wheel and the screenshot to the page. *)
Theorem empty_selector_counts_as_omitted :
  forall (d : Driver) (s : ModuleState) (w : World d),
  (forall key : string,
   run d (browserPress (mkPressArgs key (Some EmptyString)) s) w =
   run d (browserPress (mkPressArgs key None) s) w /\
   exists out s' w' tr,
     run d (browserPress (mkPressArgs key None) s) w = (out, s', w', tr) /\
     envelope_if_readable tr out /\
     pick locator_call tr = []) /\
  (forall x y : option number,
   run d (browserScroll (mkScrollArgs (Some EmptyString) x y) s) w =
   run d (browserScroll (mkScrollArgs None x y) s) w /\
   exists out s' w' tr,
     run d (browserScroll (mkScrollArgs None x y) s) w = (out, s', w', tr) /\
     envelope_if_readable tr out /\
     pick locator_call tr = []) /\
  (forall fullPage : option bool,
   run d (browserScreenshot (mkScreenshotArgs fullPage (Some EmptyString)) s) w =
   run d (browserScreenshot (mkScreenshotArgs fullPage None) s) w /\
   exists out s' w' tr,
     run d (browserScreenshot (mkScreenshotArgs fullPage None) s) w
       = (out, s', w', tr) /\
     envelope_if_readable tr out /\
     pick locator_call tr = []).
Proof.
  intros d s w. split; [ | split].
  - intros key. split; [reflexivity | ].
    unfold_handlers; follow_run.
    all: do 4 eexists; (split; [reflexivity | split; [settle_envelope | reflexivity]]).
  - intros x y. split; [reflexivity | ].
    unfold_handlers; follow_run.
    all: do 4 eexists; (split; [reflexivity | split; [settle_envelope | reflexivity]]).
  - intros fullPage. split; [reflexivity | ].
    unfold_handlers; follow_run.
    all: do 4 eexists; (split; [reflexivity | split; [settle_envelope | reflexivity]]).
Qed.

(** X5.  [browser_scroll] without a selector applies its defaults with
    [||]: an explicit [y: 0] is replaced by 300 like an omitted [y], an
    omitted, zero or [NaN] [x] is 0, and any other [x] is passed as it is.
    The command makes at most one wheel call, with these deltas; it makes
    none only when the session or the page could not be obtained. *)
Theorem scroll_by_zero_scrolls_by_300 :
  forall (d : Driver) (s : ModuleState) (w : World d) (x : option number),
  run d (browserScroll (mkScrollArgs None x (Some (Int 0))) s) w =
  run d (browserScroll (mkScrollArgs None x None) s) w /\
  exists out s' w' tr,
    run d (browserScroll (mkScrollArgs None x (Some (Int 0))) s) w
      = (out, s', w', tr) /\
    envelope_if_readable tr out /\
    (pick wheel_call tr =
       [(match x with
         | Some (Int z) => Int z
         | Some (Other shown) => Other shown
         | _ => Int 0
         end, Int 300)]
     \/ (pick wheel_call tr = [] /\ exists e, ending tr = LastThrew e)).
Proof.
  intros d s w x. split; [reflexivity | ].
  destruct x as [[ | z | shown] | ].
  2: destruct (Z.eqb z 0) eqn:Hz; [apply Z.eqb_eq in Hz; subst z | ].
  all: unfold_handlers; follow_run.
  all: try (rewrite Hz in *; discriminate).
  all: do 4 eexists; (split; [reflexivity | split; [settle_envelope | ]]); cbn.
  all: solve [ left; reflexivity
             | right; split; [reflexivity | eexists; reflexivity] ].
Qed.

(** X6.  With a non-empty selector, [browser_scroll] ignores [x] and [y]
    (it scrolls the element into view and makes no wheel call), and
    [browser_screenshot] ignores [fullPage] (it captures the element). *)
Theorem selector_overrides_page_arguments :
  forall (d : Driver) (s : ModuleState) (w : World d) (c : ascii) (rest : string),
  (forall x y : option number,
   run d (browserScroll (mkScrollArgs (Some (String c rest)) x y) s) w =
   run d (browserScroll (mkScrollArgs (Some (String c rest)) None None) s) w /\
   exists out s' w' tr,
     run d (browserScroll (mkScrollArgs (Some (String c rest)) x y) s) w
       = (out, s', w', tr) /\
     envelope_if_readable tr out /\
     pick wheel_call tr = []) /\
  (forall fullPage : option bool,
   run d (browserScreenshot (mkScreenshotArgs fullPage (Some (String c rest))) s) w =
   run d (browserScreenshot (mkScreenshotArgs None (Some (String c rest))) s) w /\
   exists out s' w' tr,
     run d (browserScreenshot (mkScreenshotArgs fullPage (Some (String c rest))) s) w
       = (out, s', w', tr) /\
     envelope_if_readable tr out /\
     existsb page_input_call tr = false).
Proof.
  intros d s w c rest. split.
  - intros x y. split; [reflexivity | ].
    unfold_handlers; follow_run.
    all: do 4 eexists; (split; [reflexivity | split; [settle_envelope | reflexivity]]).
  - intros fullPage. split; [reflexivity | ].
    unfold_handlers; follow_run.
    all: do 4 eexists; (split; [reflexivity | split; [settle_envelope | reflexivity]]).
Qed.

(** ** Navigation *)

(** X7.  [browser_new_tab] with a URL opens the tab first and navigates
    afterwards.  When that navigation throws, the command ends with what
    its [catch] clause makes of the throw (the error envelope "New tab
    failed: ..." whenever the message can be read) although [newTab()] has
    returned: the tab stays open, and the command makes no [closeTab] call
    to undo it. *)
Theorem new_tab_stays_open_when_navigation_fails :
  forall (d : Driver) (s : ModuleState) (w : World d) (c : ascii) (rest : string),
  exists out s' w' tr,
    run d (browserNewTab (mkNewTabArgs (Some (String c rest))) s) w
      = (out, s', w', tr) /\
    pick close_tab_call tr = [] /\
    forall e, pick goto_threw tr = [e] ->
      out = caught "New tab failed" e /\
      (forall message, e = ErrorObject message ->
         out = inr (error_envelope ("New tab failed: " ++ message))) /\
      exists opened, pick tab_opened tr = [opened].
Proof.
  intros d s w c rest.
  unfold_handlers; follow_run.
  all: do 4 eexists; (split; [reflexivity | ]); cbn.
  all: split; [reflexivity | ].
  all: intros err Herr; try discriminate Herr.
  all: injection Herr as <-; settle_reads.
  all: split; [reflexivity | split; [ | eexists; reflexivity]].
  all: intros message ->; cbn in *; congruence.
Qed.

Lemma new_tab_stays_open_when_navigation_fails_witness :
  exists s' w' tr,
    run SpecDriver.driver
      (browserNewTab (mkNewTabArgs (Some "https://nowhere.test/")) Scenario.attached)
      Scenario.browsing =
      (inr (error_envelope
              "New tab failed: DriverActionError: cannot reach https://nowhere.test/"),
       s', w', tr) /\
    pick tab_opened tr = [mkNewTabResult (Int 1) (Int 2)] /\
    SpecDriver.tabs (SpecDriver.session_of w' (ManagerRef 0)) = [0; 1].
Proof.
  destruct (new_tab_stays_open_when_navigation_fails SpecDriver.driver
              Scenario.attached Scenario.browsing "h" "ttps://nowhere.test/")
    as (out & s' & w' & tr & Hrun & _ & Hfail).
  destruct (Hfail (SpecDriver.DriverActionError "cannot reach https://nowhere.test/"))
    as (Henv & _).
  - cbn in Hrun. injection Hrun as <- <- <- <-. reflexivity.
  - rewrite Henv in Hrun. exists s', w', tr.
    split; [exact Hrun | ].
    cbn in Hrun. injection Hrun as <- <- <-. split; reflexivity.
Defined.

(** X8.  The two navigating commands give [goto] different options:
    [browser_navigate] always passes [waitUntil: "domcontentloaded"], the
    [goto] of [browser_new_tab] passes no option, and [browser_new_tab]
    without a URL does not navigate at all.  Each makes at most one [goto],
    to the URL it was given. *)
Theorem goto_options_of_the_navigating_commands :
  forall (d : Driver) (s : ModuleState) (w : World d),
  (forall url : string,
   exists out s' w' tr,
     run d (browserNavigate (mkNavigateArgs url) s) w = (out, s', w', tr) /\
     envelope_if_readable tr out /\
     (pick goto_call tr = [(url, Some "domcontentloaded")]
      \/ (pick goto_call tr = [] /\ exists e, ending tr = LastThrew e))) /\
  (forall (c : ascii) (rest : string),
   exists out s' w' tr,
     run d (browserNewTab (mkNewTabArgs (Some (String c rest))) s) w
       = (out, s', w', tr) /\
     envelope_if_readable tr out /\
     (pick goto_call tr = [(String c rest, None)]
      \/ (pick goto_call tr = [] /\ exists e, ending tr = LastThrew e))) /\
  (exists out s' w' tr,
     run d (browserNewTab (mkNewTabArgs None) s) w = (out, s', w', tr) /\
     envelope_if_readable tr out /\
     pick goto_call tr = []).
Proof.
  intros d s w. split; [ | split].
  - intros url. unfold_handlers; follow_run.
    all: do 4 eexists; (split; [reflexivity | split; [settle_envelope | ]]); cbn.
    all: solve [ left; reflexivity
               | right; split; [reflexivity | eexists; reflexivity] ].
  - intros c rest. unfold_handlers; follow_run.
    all: do 4 eexists; (split; [reflexivity | split; [settle_envelope | ]]); cbn.
    all: solve [ left; reflexivity
               | right; split; [reflexivity | eexists; reflexivity] ].
  - unfold_handlers; follow_run.
    all: do 4 eexists; (split; [reflexivity | split; [settle_envelope | reflexivity]]).
Qed.

(** ** Script evaluation *)

(** X9.  [browser_evaluate] returns a string result as it is, without
    calling [JSON.stringify]; any other result is handed to [JSON.stringify]
    once, and what that returns is the text of the success envelope, also
    when it is [undefined].  In every other case (the script, the
    serialisation or an earlier call threw) the command ends with what its
    [catch] clause makes of the throw, never with a success envelope. *)
Theorem evaluate_serialises_only_non_strings :
  forall (d : Driver) (s : ModuleState) (w : World d) (script : string),
  exists out s' w' tr,
    run d (browserEvaluate (mkEvaluateArgs script) s) w = (out, s', w', tr) /\
    match pick evaluate_read tr with
    | [JsString text] =>
        out = inr (text_envelope text) /\ pick stringify_call tr = []
    | [JsOther id] =>
        pick stringify_call tr = [JsOther id] /\
        match pick stringify_read tr with
        | [text] => out = inr (mkEnvelope [TextItem text] None)
        | _ => exists e, ending tr = LastThrew e /\ out = caught "Evaluate failed" e
        end
    | _ => exists e, ending tr = LastThrew e /\ out = caught "Evaluate failed" e
    end.
Proof.
  intros d s w script.
  unfold_handlers; follow_run.
  all: do 4 eexists; (split; [reflexivity | ]); cbn.
  all: try solve [repeat split].
  all: try (split; [reflexivity | ]).
  all: eexists; split; [reflexivity | ]; settle_reads; reflexivity.
Qed.

(** ** The singleton across invocations *)

(** What one invocation of any tool does: it ends in an envelope unless a
    call threw a value whose message cannot be read; it launches only a
    manager it has just constructed; and the singleton ends up empty or
    holding the last manager constructed (the one it held before when none
    was constructed). *)
Lemma invocation_discipline (d : Driver) :
  forall t : Tool, In t browserToolsServer ->
  forall (args : tool_args t) (s : ModuleState) (w : World d),
  exists out s' w' tr,
    invoke d t args s w = (out, s', w', tr) /\
    (forallb readable tr = true -> exists env, out = inr env) /\
    fresh_launches None tr = true /\
    (browser s' = None \/ browser s' = last_constructed tr (browser s)).
Proof.
  intros t Ht.
  cbv [browserToolsServer] in Ht.
  repeat (destruct Ht as [<- | Ht]); [ .. | destruct Ht].
  all: intros args s w; unfold_handlers; follow_run.
  all: do 4 eexists; (split; [reflexivity | ]); cbn.
  all: split; [ settle_reads; cbn;
                first [ intros H; discriminate H | intros _; eexists; reflexivity ] | ].
  all: repeat match goal with b : BrowserManager |- _ => destruct b end; cbn.
  all: rewrite ?Nat.eqb_refl.
  all: split; [reflexivity | ].
  all: solve [ right; reflexivity | left; reflexivity | right; assumption
             | left; assumption ].
Qed.

Lemma fresh_launches_weaken (tr : list Event) (prev : option BrowserManager) :
  fresh_launches None tr = true -> fresh_launches prev tr = true.
Proof.
  destruct tr as [ | ev rest]; [reflexivity | ].
  simpl. destruct (launch_call ev) as [[b opts] | ]; [discriminate | ].
  intros H. exact H.
Qed.

Lemma fresh_launches_app (t1 t2 : list Event) (prev : option BrowserManager) :
  fresh_launches prev t1 = true ->
  fresh_launches None t2 = true ->
  fresh_launches prev (t1 ++ t2)%list = true.
Proof.
  revert prev. induction t1 as [ | ev rest IH]; intros prev H1 H2.
  - apply fresh_launches_weaken. exact H2.
  - simpl in *. apply andb_true_iff in H1 as [Hev Hrest].
    rewrite Hev. apply IH; assumption.
Qed.

Lemma last_constructed_app (t1 t2 : list Event) (init : option BrowserManager) :
  last_constructed (t1 ++ t2)%list init = last_constructed t2 (last_constructed t1 init).
Proof.
  revert init. induction t1 as [ | ev rest IH]; intros init; simpl; [reflexivity | ].
  apply IH.
Qed.

(** Either some construction of [tr] returned, and the outcome does not
    depend on [init], or none did, and the outcome is [init]. *)
Lemma last_constructed_cases (tr : list Event) (init : option BrowserManager) :
  (exists b, forall i, last_constructed tr i = Some b) \/
  last_constructed tr init = init.
Proof.
  revert init. induction tr as [ | ev rest IH]; intros init; simpl.
  - right. reflexivity.
  - destruct (new_manager_call ev) as [[e | b] | ].
    + apply IH.
    + destruct (IH (Some b)) as [(b' & Hb') | Hkeep].
      * left. exists b'. intros i. apply Hb'.
      * left. exists b. intros i. exact Hkeep.
    + apply IH.
Qed.

(** A session of invocations of the server's tools: one outcome per
    invocation, all of them envelopes unless a call threw a value whose
    message cannot be read; every launch is made on a manager constructed by
    the call just before it; and the singleton ends up empty or holding the
    last manager constructed. *)
Lemma session_discipline (d : Driver) (script : list Invocation) :
  Forall (fun i => In (inv_tool i) browserToolsServer) script ->
  forall (s : ModuleState) (w : World d),
  exists outs s' w' tr,
    run_session d script s w = (outs, s', w', tr) /\
    List.length outs = List.length script /\
    (forallb readable tr = true -> exists envs, outs = map inr envs) /\
    fresh_launches None tr = true /\
    (browser s' = None \/ browser s' = last_constructed tr (browser s)).
Proof.
  induction 1 as [ | i rest Hi Hrest IH]; intros s w.
  - exists [], s, w, []. repeat split.
    + intros _. exists []. reflexivity.
    + right. reflexivity.
  - destruct (invocation_discipline d (inv_tool i) Hi (inv_args i) s w)
      as (out & s1 & w1 & tr1 & Hrun & Henv1 & Hfresh1 & Hlast1).
    destruct (IH s1 w1)
      as (outs & s2 & w2 & tr2 & Hrest_run & Hlen & Henv2 & Hfresh2 & Hlast2).
    exists (out :: outs), s2, w2, (tr1 ++ tr2)%list.
    split; [ | split; [ | split; [ | split]]].
    + simpl. rewrite Hrun, Hrest_run. reflexivity.
    + simpl. rewrite Hlen. reflexivity.
    + rewrite forallb_app. intros Hall.
      apply andb_true_iff in Hall as [Hall1 Hall2].
      destruct (Henv1 Hall1) as (env & ->).
      destruct (Henv2 Hall2) as (envs & ->).
      exists (env :: envs). reflexivity.
    + apply fresh_launches_app; assumption.
    + rewrite last_constructed_app.
      destruct Hlast2 as [Hnone | Hlast2]; [left; exact Hnone | ].
      destruct Hlast1 as [Hnone1 | Hlast1].
      * rewrite Hnone1 in Hlast2.
        destruct (last_constructed_cases tr2 None) as [(b & Hb) | Hkeep].
        -- right. rewrite Hlast2, !Hb. reflexivity.
        -- left. rewrite Hlast2. exact Hkeep.
      * right. rewrite Hlast2, Hlast1. reflexivity.
Qed.

(** X10.  Over any session of invocations of the server's tools, against
    any driver and from any state, the framework receives exactly one
    outcome per invocation, in order; every outcome is an envelope, and
    none an exception, provided no call of the session threw a value whose
    message cannot be read (such as [null] or [undefined]). *)
Theorem a_session_yields_one_outcome_per_invocation :
  forall (d : Driver) (script : list Invocation),
  Forall (fun i => In (inv_tool i) browserToolsServer) script ->
  forall (s : ModuleState) (w : World d),
  let '(outs, _, _, tr) := run_session d script s w in
  List.length outs = List.length script /\
  (forallb readable tr = true -> exists envs, outs = map inr envs).
Proof.
  intros d script Hscript s w.
  destruct (session_discipline d script Hscript s w)
    as (outs & s' & w' & tr & Hrun & Hlen & Henvs & _).
  rewrite Hrun. split; [exact Hlen | exact Henvs].
Qed.

(** X11.  The module refers to at most one manager, the newest: after any
    session of invocations the singleton is empty or holds the manager that
    the last returning [new BrowserManager()] of the session produced (the
    manager it held at the start when the session constructed none). *)
Theorem singleton_is_empty_or_the_last_constructed :
  forall (d : Driver) (script : list Invocation),
  Forall (fun i => In (inv_tool i) browserToolsServer) script ->
  forall (s : ModuleState) (w : World d),
  let '(_, s', _, tr) := run_session d script s w in
  browser s' = None \/ browser s' = last_constructed tr (browser s).
Proof.
  intros d script Hscript s w.
  destruct (session_discipline d script Hscript s w)
    as (outs & s' & w' & tr & Hrun & _ & _ & _ & Hlast).
  rewrite Hrun. exact Hlast.
Qed.

(** X12.  A manager is launched only right after it has been constructed,
    never later: in the calls of any session of invocations, every [launch]
    is made on the manager returned by the [new BrowserManager()] that is
    the call just before it. *)
Theorem every_launch_follows_its_construction :
  forall (d : Driver) (script : list Invocation),
  Forall (fun i => In (inv_tool i) browserToolsServer) script ->
  forall (s : ModuleState) (w : World d),
  fresh_launches None (snd (run_session d script s w)) = true.
Proof.
  intros d script Hscript s w.
  destruct (session_discipline d script Hscript s w)
    as (outs & s' & w' & tr & Hrun & _ & _ & Hfresh & _).
  rewrite Hrun. exact Hfresh.
Qed.

Lemma recovery_is_a_session_of_the_server :
  Forall (fun i => In (inv_tool i) browserToolsServer) Scripts.recovery.
Proof.
  repeat apply Forall_cons; try apply Forall_nil.
  - simpl. do 18 right. left. reflexivity.
  - simpl. do 30 right. left. reflexivity.
  - simpl. do 18 right. left. reflexivity.
  - simpl. left. reflexivity.
  - simpl. right. left. reflexivity.
Defined.

Lemma a_session_yields_one_outcome_per_invocation_witness :
  let '(outs, _, _, tr) :=
    run_session SpecDriver.driver Scripts.recovery initial_state Scenario.faulty in
  List.length outs = 5 /\
  exists envs, outs = map inr envs.
Proof.
  pose proof (a_session_yields_one_outcome_per_invocation SpecDriver.driver
                Scripts.recovery recovery_is_a_session_of_the_server
                initial_state Scenario.faulty) as H.
  cbn in H |- *. destruct H as [Hlen Henvs].
  split; [exact Hlen | apply Henvs; reflexivity].
Defined.

(** The same session against the driver that throws [null]: five outcomes,
    none of them an envelope. *)
Example recovery_when_the_driver_throws_null :
  let '(outs, _, _, _) := run_session Outage.nulls Scripts.recovery initial_state tt in
  outs = [inl (TypeError_reading "null"); inr (text_envelope "Browser closed");
          inl (TypeError_reading "null"); inl (TypeError_reading "null");
          inl (TypeError_reading "null")].
Proof. reflexivity. Qed.

Lemma singleton_is_empty_or_the_last_constructed_witness :
  let '(_, s', _, tr) :=
    run_session SpecDriver.driver Scripts.recovery initial_state Scenario.faulty in
  browser s' = None \/ browser s' = last_constructed tr (browser initial_state).
Proof.
  apply (singleton_is_empty_or_the_last_constructed SpecDriver.driver
           Scripts.recovery recovery_is_a_session_of_the_server).
Defined.

Lemma every_launch_follows_its_construction_witness :
  fresh_launches None
    (snd (run_session SpecDriver.driver Scripts.recovery initial_state Scenario.faulty))
  = true.
Proof.
  apply (every_launch_follows_its_construction SpecDriver.driver
           Scripts.recovery recovery_is_a_session_of_the_server).
Defined.

(** The session [recovery] on a first launch that fails: the envelopes, and
    the managers constructed and launched. *)
Example recovery_on_a_failed_first_launch :
  let '(outs, s', _, tr) :=
    run_session SpecDriver.driver Scripts.recovery initial_state Scenario.faulty in
  map isError_of outs = [Some true; None; None; None; None] /\
  pick new_manager_call tr = [inr (ManagerRef 0); inr (ManagerRef 1)] /\
  map fst (pick launch_call tr) = [ManagerRef 0; ManagerRef 1] /\
  browser s' = Some (ManagerRef 1).
Proof. cbn. repeat split. Qed.

(** X13.  The singleton gives up a manager only on the driver's word: an
    invocation of any tool that starts with manager [b] in the singleton
    ends with [b] still there, unless [close()] on [b] returned during the
    invocation or [isLaunched()] on [b] returned [false]. *)
Theorem manager_is_dropped_only_when_closed_or_not_launched :
  forall (d : Driver) (t : Tool), In t browserToolsServer ->
  forall (args : tool_args t) (s : ModuleState) (w : World d) (b : BrowserManager),
  browser s = Some b ->
  exists out s' w' tr,
    invoke d t args s w = (out, s', w', tr) /\
    envelope_if_readable tr out /\
    (browser s' = Some b \/
     pick close_call tr = [(b, true)] \/
     pick not_launched_report tr = [b]).
Proof.
  intros d t Ht.
  cbv [browserToolsServer] in Ht.
  repeat (destruct Ht as [<- | Ht]); [ .. | destruct Ht].
  all: intros args s w b Hb; unfold_handlers; cbn; rewrite ?Hb; follow_run.
  all: do 4 eexists; (split; [reflexivity | split; [settle_envelope | ]]); cbn.
  all: solve [ left; assumption | right; left; reflexivity | right; right; reflexivity ].
Qed.

Lemma manager_is_dropped_only_when_closed_or_not_launched_witness :
  exists out s' w' tr,
    invoke SpecDriver.driver (mkTool "browser_launch" LaunchArgs browserLaunch)
      (mkLaunchArgs None None) Scenario.attached Scenario.unlaunched
      = (out, s', w', tr) /\
    envelope_if_readable tr out /\
    (browser s' = Some (ManagerRef 0) \/
     pick close_call tr = [(ManagerRef 0, true)] \/
     pick not_launched_report tr = [ManagerRef 0]).
Proof.
  apply (manager_is_dropped_only_when_closed_or_not_launched SpecDriver.driver
           (mkTool "browser_launch" LaunchArgs browserLaunch)).
  - simpl. left. reflexivity.
  - reflexivity.
Defined.

(** X14.  Only [browser_close] closes the browser: an invocation of any
    other tool never calls [close()], whatever fails in it, and
    [browser_close] calls it at most once, on the manager in the singleton. *)
Theorem only_browser_close_calls_close :
  forall (d : Driver) (t : Tool), In t browserToolsServer ->
  forall (args : tool_args t) (s : ModuleState) (w : World d),
  exists out s' w' tr,
    invoke d t args s w = (out, s', w', tr) /\
    envelope_if_readable tr out /\
    (pick close_call tr = [] \/
     (tool_name t = "browser_close" /\
      exists b returned, browser s = Some b /\ pick close_call tr = [(b, returned)])).
Proof.
  intros d t Ht.
  cbv [browserToolsServer] in Ht.
  repeat (destruct Ht as [<- | Ht]); [ .. | destruct Ht].
  all: intros args s w; unfold_handlers; follow_run.
  all: do 4 eexists; (split; [reflexivity | split; [settle_envelope | ]]); cbn.
  all: first [ left; reflexivity
             | right; split; [reflexivity | do 2 eexists; split; reflexivity] ].
Qed.

Lemma only_browser_close_calls_close_witness :
  exists env s' w' tr,
    invoke Outage.down (mkTool "browser_click" ClickArgs browserClick)
      (mkClickArgs "#go" None None) Scenario.attached tt = (inr env, s', w', tr) /\
    pick close_call tr = [].
Proof.
  destruct (only_browser_close_calls_close Outage.down
              (mkTool "browser_click" ClickArgs browserClick))
    with (args := mkClickArgs "#go" None None) (s := Scenario.attached) (w := tt)
    as (out & s' & w' & tr & Hrun & Hclose).
  - simpl. do 5 right. left. reflexivity.
  - destruct out as [e | env]; [cbn in Hrun; discriminate Hrun | ].
    exists env, s', w', tr. split; [exact Hrun | ].
    cbn in Hrun. injection Hrun as <- <- <- <-. reflexivity.
Defined.

(** ** The shape of the envelopes *)

(** X15.  Every envelope of every tool carries exactly one text item, with
    one exception: the success envelope of [browser_screenshot] carries an
    image item of type [image/png] followed by a text item.  No envelope is
    empty, and no other tool returns an image.  An invocation ends without
    an envelope only when a call threw a value whose message cannot be
    read. *)
Theorem envelopes_hold_one_text_item_or_a_screenshot :
  forall (d : Driver) (t : Tool), In t browserToolsServer ->
  forall (args : tool_args t) (s : ModuleState) (w : World d),
  exists out s' w' tr,
    invoke d t args s w = (out, s', w', tr) /\
    match out with
    | inr env =>
        match content env with
        | [TextItem _] => True
        | [ImageItem _ mimeType; TextItem (Some _)] =>
            tool_name t = "browser_screenshot" /\ mimeType = "image/png" /\
            isError env = None
        | _ => False
        end
    | inl _ => forallb readable tr = false
    end.
Proof.
  intros d t Ht.
  cbv [browserToolsServer] in Ht.
  repeat (destruct Ht as [<- | Ht]); [ .. | destruct Ht].
  all: intros args s w; unfold_handlers; follow_run.
  all: do 4 eexists; (split; [reflexivity | ]); cbn.
  all: settle_reads; repeat split.
Qed.

Lemma envelopes_hold_one_text_item_or_a_screenshot_witness :
  exists data text s' w' tr,
    invoke SpecDriver.driver
      (mkTool "browser_screenshot" ScreenshotArgs browserScreenshot)
      (mkScreenshotArgs None (Some "#go")) Scenario.attached Scenario.browsing
    = (inr (mkEnvelope [ImageItem data "image/png"; TextItem (Some text)] None),
       s', w', tr).
Proof.
  destruct (envelopes_hold_one_text_item_or_a_screenshot SpecDriver.driver
              (mkTool "browser_screenshot" ScreenshotArgs browserScreenshot))
    with (args := mkScreenshotArgs None (Some "#go")) (s := Scenario.attached)
         (w := Scenario.browsing)
    as (out & s' & w' & tr & Hrun & _).
  - simpl. do 14 right. left. reflexivity.
  - cbn in Hrun. injection Hrun as <- <- <- <-. do 5 eexists. reflexivity.
Defined.

(** ** index.ts *)

Section CrawlerLoop.

Variable SDKResultMessage : Type.
Variable subtype : SDKResultMessage -> string.
Variable result : SDKResultMessage -> string.
Variable printUsage : SDKResultMessage -> list string.
Variable stringify : JsValue -> option string.

Abbreviation SDKMessage := (Crawler.SDKMessage SDKResultMessage).
Abbreviation on_message :=
  (Crawler.on_message SDKResultMessage subtype result stringify).
Abbreviation consume := (Crawler.consume SDKResultMessage subtype result stringify).
Abbreviation runCrawler :=
  (Crawler.runCrawler SDKResultMessage subtype result printUsage stringify).
Abbreviation results := (Crawler.results SDKResultMessage).

Lemma last_cons {A : Type} (x d : A) (l : list A) :
  last (x :: l) d = last l x.
Proof.
  revert x d. induction l as [ | y l IH]; intros x d; [reflexivity | ].
  change (last (x :: y :: l) d) with (last (y :: l) d).
  rewrite (IH y d), (IH y x). reflexivity.
Qed.

(** The loop keeps as [resultMessage] the last result message seen. *)
Lemma loop_keeps_last_result (messages : list SDKMessage)
    (st : option SDKResultMessage * list string) :
  fst (fold_left on_message messages st) =
  last (map Some (results messages)) (fst st).
Proof.
  revert st. induction messages as [ | m rest IH]; intros st; [reflexivity | ].
  simpl fold_left. rewrite IH.
  destruct m as [content | r | ]; cbn [Crawler.results map Crawler.on_message fst].
  - reflexivity.
  - rewrite last_cons. reflexivity.
  - reflexivity.
Qed.


End CrawlerLoop.
